(** * pkger HTTP transport: encoding resolution and the apply / export handlers

    A shallow embedding of [pkger/http_server.go].  Go strings are byte
    strings ([string]); [http.Header] is a finite map from canonical keys to
    value lists; a value of Go type [error], a pointer or an interface is
    an [option], with [None] for nil.  Handlers are programs over the
    operations they perform on their collaborators (the package service,
    the parser, the logger, the injected error handler and the response
    writer), whose runs are recorded as traces. *)

From Stdlib Require Import ZArith NArith Ascii String List.
From stdpp Require Import base option list strings gmap.

Local Open Scope string_scope.
Local Open Scope Z_scope.

Set Warnings "-register-all".

(** ** Go library functions used by the handlers *)

Module Go.

(** [strings.ToLower] on the ASCII range: bytes 'A'..'Z' are mapped to
    'a'..'z'.  Every other byte is kept.  (Go also lowers non-ASCII runes;
    the only ones whose lower case is an ASCII letter are U+0130 and
    U+212A, which give 'i' and 'k', letters that occur in none of the
    names the handlers compare against.) *)
Definition lower_byte (c : ascii) : ascii :=
  let n := N_of_ascii c in
  if ((65 <=? n) && (n <=? 90))%N then ascii_of_N (n + 32) else c.

Fixpoint ToLower (s : string) : string :=
  match s with
  | EmptyString => EmptyString
  | String c rest => String (lower_byte c) (ToLower rest)
  end.

(** [path.Ext]:
    for i := len(path) - 1; i >= 0 && path[i] != '/'; i-- {
      if path[i] == '.' { return path[i:] }
    }
    return ""
    [Ext_loop path n] is the loop entered with [i = n - 1]. *)
Fixpoint Ext_loop (path : string) (n : nat) : string :=
  match n with
  | O => ""
  | S i =>
      match String.get i path with
      | Some c =>
          if Ascii.eqb c "/" then ""
          else if Ascii.eqb c "." then String.substring i (String.length path - i) path
          else Ext_loop path i
      | None => ""
      end
  end.

Definition Ext (path : string) : string := Ext_loop path (String.length path).

(** [http.Header] is [map[string][]string]; [Get] canonicalises the key
    (the handlers pass the already canonical "Content-Type") and returns
    the first value stored under it, or "" when there is none. *)
Definition Header_Get (h : gmap string (list string)) (key : string) : string :=
  match h !! key with
  | Some (v :: _) => v
  | _ => ""
  end.

(** status codes of [net/http] used by the handlers *)
Definition StatusOK : Z := 200.
Definition StatusCreated : Z := 201.
Definition StatusUnprocessableEntity : Z := 422.

End Go.

(** ** Encodings *)

(** The [Encoding] tags the transport refers to. *)
Inductive Encoding : Type :=
| EncodingJSON
| EncodingJsonnet
| EncodingSource
| EncodingYAML.

#[global] Instance Encoding_eq_dec : EqDecision Encoding.
Proof. solve_decision. Defined.

(** [PkgRemote] provides a package via a remote (i.e. a gist). *)
Record PkgRemote : Type := mkPkgRemote {
  URL : string;
  ContentType : string
}.

(** [func (p PkgRemote) Encoding() Encoding] *)
Definition PkgRemote_Encoding (p : PkgRemote) : Encoding :=
  let ct := Go.ToLower (ContentType p) in
  let urlBase := Go.Ext (URL p) in
  if String.eqb ct "jsonnet" || String.eqb urlBase ".jsonnet" then EncodingJsonnet
  else if String.eqb ct "json" || String.eqb urlBase ".json" then EncodingJSON
  else if String.eqb ct "yml" || String.eqb ct "yaml"
          || String.eqb urlBase ".yml" || String.eqb urlBase ".yaml" then EncodingYAML
  else EncodingSource.

(** [func pkgEncoding(headers http.Header) Encoding] *)
Definition pkgEncoding (headers : gmap string (list string)) : Encoding :=
  let contentType := Go.Header_Get headers "Content-Type" in
  if String.eqb contentType "application/x-jsonnet" then EncodingJsonnet
  else if String.eqb contentType "text/yml" || String.eqb contentType "application/x-yaml"
  then EncodingYAML
  else EncodingJSON.

(** A text with neither a dot nor a slash in it: what follows the dot of
    an extension, or a last path element without extension. *)
Fixpoint no_dot_or_slash (s : string) : bool :=
  match s with
  | EmptyString => true
  | String c rest =>
      negb (Ascii.eqb c ".") && negb (Ascii.eqb c "/") && no_dot_or_slash rest
  end.

(** ** Data of the transport *)

Section Pkger.

(** Types declared elsewhere in the repository and only passed through by
    the handlers. [Ctx] is [context.Context]; [Pkg] is the parsed package. *)
Context {Summary Diff ValidationErr Object ResourceToClone Pkg Authorizer Ctx : Type}.

(** [influxdb.ID] is an unsigned 64 bit integer. *)
Definition ID : Type := N.

(** The error codes the handlers name, and any other code a collaborator
    may put into an [influxdb.Error]. *)
Inductive ErrCode : Type :=
| EInternal
| EInvalid
| EUnprocessableEntity
| EConflict
| ECode (name : string).

(** Go [error] values by dynamic type: a value implementing the
    [ParseError] interface (with the result of its [ValidationErrs()]), a
    [*influxdb.Error], or anything else.  A nil error is [None] of
    [option error]. *)
Inductive error : Type :=
| ParseErr (errs : list ValidationErr)
| InfluxErr (Code : ErrCode) (Msg : string) (Err : option error)
| OtherErr (msg : string).

(** Arguments handed to [fmt.Sprintf]. *)
Inductive fmt_arg : Type :=
| ArgString (s : string)
| ArgError (e : option error).

(** [ReqCreatePkg] is a request body for the create pkg endpoint.  A nil
    slice and an empty slice are both []. *)
Record ReqCreatePkg : Type := mkReqCreatePkg {
  OrgIDs : list string;
  Resources : list ResourceToClone
}.

(** [ReqApplyPkg] is the request body for the apply pkg endpoint. *)
Record ReqApplyPkg : Type := mkReqApplyPkg {
  DryRun : bool;
  OrgID : string;
  Remote : PkgRemote;
  RawPkg : string;
  Secrets : gmap string string
}.

(** [RespApplyPkg] is the response body for the apply pkg endpoint.  The
    [Errors] field is tagged [omitempty]. *)
Record RespApplyPkg : Type := mkRespApplyPkg {
  resp_Diff : Diff;
  resp_Summary : Summary;
  resp_Errors : list ValidationErr
}.

(** [encoding/json] leaves an [omitempty] slice field out when its length is 0. *)
Definition has_errors_field (b : RespApplyPkg) : bool :=
  match resp_Errors b with
  | [] => false
  | _ :: _ => true
  end.

(** The part of [*http.Request] the handlers read. *)
Record Request : Type := mkRequest {
  Header : gmap string (list string);
  Body : string;
  Context_ : Ctx
}.

(** Where [Parse] reads the package from. *)
Inductive ReaderFn : Type :=
| FromHTTPRequest (addr : string)
| FromReader (bytes : string).

(** Options handed to [SVC.CreatePkg] and [SVC.Apply]. *)
Inductive CreatePkgSetFn : Type :=
| CreateWithExistingResources (resources : list ResourceToClone)
| CreateWithAllOrgResources (orgID : ID).

Inductive ApplyOptFn : Type :=
| ApplyWithSecrets (secrets : gmap string string).

(** The two encoders of the transport and what they are asked to encode. *)
Inductive encoderKind : Type :=
| JSONEnc   (* newJSONEnc(w) *)
| YAMLEnc.  (* yaml.NewEncoder(w) *)

Inductive payload : Type :=
| ApplyBody (res : RespApplyPkg)
| CreateBody (res : list Object).

(** Functions of the repository and of its libraries that the handlers
    call and whose code is not part of this file.  Results are Go result
    tuples: a nil pointer, interface or error is [None]. *)
Record Externals : Type := mkExternals {
  IDFromString : string -> option ID * option error;
  GetAuthorizer : Ctx -> option Authorizer * option error;
  GetUserID : Authorizer -> ID;
  IsParseErr : option error -> bool;
  Encoding_String : Encoding -> string;
  Sprintf : string -> list fmt_arg -> string;
  (* dec.Decode(&reqBody) on the request body: reqBody afterwards, and the error *)
  json_Decode_create : string -> ReqCreatePkg * option error;
  json_Decode_apply : string -> ReqApplyPkg * option error;
  yaml_Decode_apply : string -> ReqApplyPkg * option error;
  jsonnet_Decode_apply : string -> ReqApplyPkg * option error;
  (* the Objects field of a Pkg; None is the nil slice *)
  Pkg_Objects : Pkg -> option (list Object);
  (* the status code the injected HTTPErrorHandler writes for an error *)
  HTTPErrorStatus : option error -> Z
}.

(** ** Handlers as programs over their collaborators *)

(** What a handler does to the outside: calls of [Parse] and of the [SVC]
    methods, logging, the injected error handler, and the response writer.
    An argument of Go type [error] is an [option error]. *)
Inductive op : Type :=
| Parse (encoding : Encoding) (src : ReaderFn)
| SvcDryRun (ctx : Ctx) (orgID userID : ID) (pkg : option Pkg)
| SvcApply (ctx : Ctx) (orgID userID : ID) (pkg : option Pkg) (opts : list ApplyOptFn)
| SvcCreatePkg (ctx : Ctx) (opts : list CreatePkgSetFn)
| LoggerError (msg : string) (err : option error)
| HandleHTTPError (ctx : Ctx) (err : option error)
| HeaderSet (key value : string)
| WriteHeader (code : Z)
| Encode (enc : encoderKind) (res : payload)
| BodyClose.

(** What each operation gives back. *)
Definition answer (o : op) : Type :=
  match o with
  | Parse _ _ => (option Pkg * option error)%type
  | SvcDryRun _ _ _ _ => (Summary * Diff * option error)%type
  | SvcApply _ _ _ _ _ => (Summary * option error)%type
  | SvcCreatePkg _ _ => (option Pkg * option error)%type
  | Encode _ _ => option error
  | _ => unit
  end.

(** One entry of a run: the operation together with its result. *)
Inductive event : Type :=
| EvParse (encoding : Encoding) (src : ReaderFn) (res : option Pkg * option error)
| EvDryRun (ctx : Ctx) (orgID userID : ID) (pkg : option Pkg) (res : Summary * Diff * option error)
| EvApply (ctx : Ctx) (orgID userID : ID) (pkg : option Pkg) (opts : list ApplyOptFn)
    (res : Summary * option error)
| EvCreatePkg (ctx : Ctx) (opts : list CreatePkgSetFn) (res : option Pkg * option error)
| EvLoggerError (msg : string) (err : option error)
| EvHandleHTTPError (ctx : Ctx) (err : option error)
| EvHeaderSet (key value : string)
| EvWriteHeader (code : Z)
| EvEncode (enc : encoderKind) (res : payload) (err : option error)
| EvBodyClose.

Definition record (o : op) : answer o -> event :=
  match o with
  | Parse e s => EvParse e s
  | SvcDryRun c o u p => EvDryRun c o u p
  | SvcApply c o u p os => EvApply c o u p os
  | SvcCreatePkg c os => EvCreatePkg c os
  | LoggerError m e => fun _ => EvLoggerError m e
  | HandleHTTPError c e => fun _ => EvHandleHTTPError c e
  | HeaderSet k v => fun _ => EvHeaderSet k v
  | WriteHeader c => fun _ => EvWriteHeader c
  | Encode k r => EvEncode k r
  | BodyClose => fun _ => EvBodyClose
  end.

(** A handler body: it returns, or performs an operation and goes on with
    the result. *)
Inductive prog (R : Type) : Type :=
| Ret (r : R)
| Do (o : op) (k : answer o -> prog R).

Arguments Ret {R} r.
Arguments Do {R} o k.

Fixpoint bind {A B : Type} (p : prog A) (f : A -> prog B) : prog B :=
  match p with
  | Ret a => f a
  | Do o k => Do o (fun x => bind (k x) f)
  end.

Definition call (o : op) : prog (answer o) := Do o Ret.

#[global] Instance prog_ret : MRet prog := @Ret.
#[global] Instance prog_bind : MBind prog := fun A B f p => bind p f.

(** The collaborators as a state machine over a world [W], and the run of a
    program against them: result, trace and final world. *)
Definition oracle (W : Type) : Type := forall o : op, W -> answer o * W.

Fixpoint run {W R : Type} (h : oracle W) (p : prog R) (w : W) : R * list event * W :=
  match p with
  | Ret r => (r, [], w)
  | Do o k =>
      let '(a, w1) := h o w in
      let '(r, t, w2) := run h (k a) w1 in
      (r, record o a :: t, w2)
  end.

(** The traces a program can produce, whatever the collaborators answer. *)
Fixpoint exec {R : Type} (p : prog R) (t : list event) (r : R) : Prop :=
  match p with
  | Ret r' => t = [] /\ r = r'
  | Do o k => exists (a : answer o) (t' : list event), t = record o a :: t' /\ exec (k a) t' r
  end.

(** How a handler ends: it returns, or it panics. *)
Inductive completion : Type :=
| Done
| Panic (what : string).

(** ** The handlers *)

Variable ext : Externals.

(** [err != nil] *)
Definition not_nil (err : option error) : bool :=
  match err with
  | Some _ => true
  | None => false
  end.

(** [func newDecodeErr(encoding string, err error) *influxdb.Error] *)
Definition newDecodeErr (encoding : string) (err : option error) : error :=
  InfluxErr EInvalid
    (Sprintf ext "unable to unmarshal %s; Err: %v" [ArgString encoding; ArgError err])
    err.

(** [func convertParseErr(err error) []ValidationErr]: the type assertion
    [err.(ParseError)], then [ValidationErrs()]. *)
Definition convertParseErr (err : option error) : list ValidationErr :=
  match err with
  | Some (ParseErr errs) => errs
  | _ => []
  end.

(** [func (s *HTTPServer) encResp(ctx, w, enc, code, res)] *)
Definition encResp (ctx : Ctx) (enc : encoderKind) (code : Z) (res : payload) : prog unit :=
  call (WriteHeader code) ;;
  err ← call (Encode enc res) ;
  if not_nil err then
    call (HandleHTTPError ctx (Some (InfluxErr EInternal
            (Sprintf ext "unable to marshal; Err: %v" [ArgError err]) err)))
  else mret tt.

(** [func (s *HTTPServer) encJSONResp(ctx, w, code, res)] *)
Definition encJSONResp (ctx : Ctx) (code : Z) (res : payload) : prog unit :=
  encResp ctx JSONEnc code res.

(** [func decodeWithEncoding(r *http.Request, v interface{}) (Encoding, error)],
    with [v] the address of a zero [ReqApplyPkg]; the decoded value is
    returned next to the error. *)
Definition decodeWithEncoding (r : Request) : Encoding * (ReqApplyPkg * option error) :=
  let encoding := pkgEncoding (Header r) in
  let dec :=
    match encoding with
    | EncodingJsonnet => jsonnet_Decode_apply ext
    | EncodingYAML => yaml_Decode_apply ext
    | _ => json_Decode_apply ext
    end in
  (encoding, dec (Body r)).

(** [func (r ReqApplyPkg) Pkg(encoding Encoding)], returning a [*Pkg] and an error *)
Definition ReqApplyPkg_Pkg (r : ReqApplyPkg) (encoding : Encoding)
  : prog (option Pkg * option error) :=
  if negb (String.eqb (URL (Remote r)) "") then
    call (Parse (PkgRemote_Encoding (Remote r)) (FromHTTPRequest (URL (Remote r))))
  else
    call (Parse encoding (FromReader (RawPkg r))).

(** [func (s *HTTPServer) applyPkg(w http.ResponseWriter, r *http.Request)].
    [*orgID] is evaluated as an argument of the dry-run call. *)
Definition applyPkg (r : Request) : prog completion :=
  let ctx := Context_ r in
  let '(encoding, (reqBody, err)) := decodeWithEncoding r in
  if not_nil err then
    call (HandleHTTPError ctx (Some (newDecodeErr (Encoding_String ext encoding) err))) ;;
    mret Done
  else
  let '(orgID, err) := IDFromString ext (OrgID reqBody) in
  if not_nil err then
    call (HandleHTTPError ctx (Some (InfluxErr EConflict
            (Sprintf ext "invalid organization ID provided: %q" [ArgString (OrgID reqBody)])
            None))) ;;
    mret Done
  else
  let '(auth, err) := GetAuthorizer ext ctx in
  if not_nil err then
    call (HandleHTTPError ctx err) ;;
    mret Done
  else
  match auth with
  | None => mret (Panic "GetUserID on a nil Authorizer")
  | Some auth =>
  let userID := GetUserID ext auth in
  '(parsedPkg, err) ← ReqApplyPkg_Pkg reqBody encoding ;
  if not_nil err then
    call (HandleHTTPError ctx (Some (InfluxErr EInvalid
            "failed to parse package from provided URL" err))) ;;
    mret Done
  else
  match orgID with
  | None => mret (Panic "nil orgID dereferenced")
  | Some orgID =>
  '(sum, diff, err) ← call (SvcDryRun ctx orgID userID parsedPkg) ;
  if IsParseErr ext err then
    encJSONResp ctx Go.StatusUnprocessableEntity
      (ApplyBody (mkRespApplyPkg diff sum (convertParseErr err))) ;;
    mret Done
  else
  if not_nil err then
    call (LoggerError "failed to dry run pkg" err) ;;
    call (HandleHTTPError ctx err) ;;
    mret Done
  else
  (* if only a dry run, then we exit before anything destructive *)
  if DryRun reqBody then
    encJSONResp ctx Go.StatusOK (ApplyBody (mkRespApplyPkg diff sum [])) ;;
    mret Done
  else
  '(sum, err) ← call (SvcApply ctx orgID userID parsedPkg [ApplyWithSecrets (Secrets reqBody)]) ;
  if not_nil err && negb (IsParseErr ext err) then
    call (LoggerError "failed to apply pkg" err) ;;
    call (HandleHTTPError ctx err) ;;
    mret Done
  else
  encJSONResp ctx Go.StatusCreated
    (ApplyBody (mkRespApplyPkg diff sum (convertParseErr err))) ;;
  mret Done
  end
  end.

(** The loop of [createPkg] over [reqBody.OrgIDs], started with the options
    collected so far; [None] when [*orgID] dereferences a nil pointer. *)
Fixpoint createPkg_orgOpts (orgIDs : list string) (opts : list CreatePkgSetFn)
  : option (list CreatePkgSetFn) :=
  match orgIDs with
  | [] => Some opts
  | orgIDStr :: rest =>
      let '(orgID, err) := IDFromString ext orgIDStr in
      if not_nil err then createPkg_orgOpts rest opts (* continue *)
      else
        match orgID with
        | None => None
        | Some orgID => createPkg_orgOpts rest (opts ++ [CreateWithAllOrgResources orgID])
        end
  end.

(** [func (s *HTTPServer) createPkg(w http.ResponseWriter, r *http.Request)].
    The deferred [r.Body.Close()] runs when the part after the decode ends. *)
Definition createPkg (r : Request) : prog completion :=
  let ctx := Context_ r in
  let encoding := pkgEncoding (Header r) in
  let '(reqBody, err) := json_Decode_create ext (Body r) in
  if not_nil err then
    call (HandleHTTPError ctx (Some (newDecodeErr "json" err))) ;;
    mret Done
  else
  c ← (if Nat.eqb (length (Resources reqBody)) 0 && Nat.eqb (length (OrgIDs reqBody)) 0 then
         call (HandleHTTPError ctx (Some (InfluxErr EUnprocessableEntity
                 "at least 1 resource or 1 org id must be provided" None))) ;;
         mret Done
       else
       match createPkg_orgOpts (OrgIDs reqBody)
               [CreateWithExistingResources (Resources reqBody)] with
       | None => mret (Panic "nil orgID dereferenced")
       | Some opts =>
       '(newPkg, err) ← call (SvcCreatePkg ctx opts) ;
       if not_nil err then
         call (LoggerError "failed to create pkg" err) ;;
         call (HandleHTTPError ctx err) ;;
         mret Done
       else
       match newPkg with
       | None => mret (Panic "nil Pkg dereferenced")
       | Some newPkg =>
       let resp := match Pkg_Objects ext newPkg with
                   | None => []
                   | Some objects => objects
                   end in
       match encoding with
       | EncodingYAML =>
           call (HeaderSet "Content-Type" "application/x-yaml") ;;
           encResp ctx YAMLEnc Go.StatusOK (CreateBody resp)
       | _ =>
           call (HeaderSet "Content-Type" "application/json; charset=utf-8") ;;
           encResp ctx JSONEnc Go.StatusOK (CreateBody resp)
       end ;;
       mret Done
       end
       end) ;
  call BodyClose ;;
  mret c.

(** ** What a trace shows of the response and of the calls made *)

(** The status line of the response: the first status written, by
    [WriteHeader] or by the error handler (later ones are ignored by
    [net/http]). *)
Fixpoint response_status (t : list event) : option Z :=
  match t with
  | [] => None
  | EvWriteHeader code :: _ => Some code
  | EvHandleHTTPError _ err :: _ => Some (HTTPErrorStatus ext err)
  | _ :: t' => response_status t'
  end.

(** The values handed to an encoder of the response body, in order. *)
Definition encoded (t : list event) : list (encoderKind * payload) :=
  omap (fun e => match e with
                 | EvEncode enc res _ => Some (enc, res)
                 | _ => None
                 end) t.

Definition is_dry_run_call (e : event) : bool :=
  match e with EvDryRun _ _ _ _ _ => true | _ => false end.

Definition is_apply_call (e : event) : bool :=
  match e with EvApply _ _ _ _ _ _ => true | _ => false end.

Definition is_create_call (e : event) : bool :=
  match e with EvCreatePkg _ _ _ => true | _ => false end.

Definition trace_of {W R : Type} (h : oracle W) (p : prog R) (w : W) : list event :=
  snd (fst (run h p w)).

(** The request body the apply handler works on. *)
Definition apply_reqBody (r : Request) : ReqApplyPkg := (decodeWithEncoding r).2.1.

Definition no_call (is_call : event -> bool) (t : list event) : Prop :=
  Forall (fun e => is_call e = false) t.

(** The option a single org id string contributes in [createPkg]: none
    when [IDFromString] reports an error. *)
Definition org_option (orgIDStr : string) : option CreatePkgSetFn :=
  let '(orgID, err) := IDFromString ext orgIDStr in
  if not_nil err then None else CreateWithAllOrgResources <$> orgID.

(** [IDFromString] gives an error or an id, never a nil pointer without an error. *)
Definition id_or_error (orgIDStr : string) : Prop :=
  IDFromString ext orgIDStr <> (None, None).

(** The errors handed to the injected error handler, in order. *)
Definition handled (t : list event) : list (option error) :=
  omap (fun e => match e with
                 | EvHandleHTTPError _ err => Some err
                 | _ => None
                 end) t.

(** The response headers set through [w.Header().Set], in order. *)
Definition headers_set (t : list event) : list (string * string) :=
  omap (fun e => match e with
                 | EvHeaderSet key value => Some (key, value)
                 | _ => None
                 end) t.

Definition is_parse_call (e : event) : bool :=
  match e with EvParse _ _ _ => true | _ => false end.

Definition is_body_close (e : event) : bool :=
  match e with EvBodyClose => true | _ => false end.

(** How often a kind of call occurs in a trace. *)
Definition count_calls (is_call : event -> bool) (t : list event) : nat :=
  length (List.filter is_call t).

End Pkger.

(** * The users HTTP transport

    A shallow embedding of [http/user_service.go]: the handlers of the users
    API, the request decoders and response builders they use, and the
    [FindUser] and [FindUsers] methods of the HTTP client.  Handlers and
    client methods are programs over the operations they perform on their
    collaborators, as for the packages transport. *)

Module UserHTTP.

Section Model.

(** Types declared elsewhere in the repository and only passed through:
    the fields of [influxdb.User] other than [ID] and [Status],
    [influxdb.UserUpdate], [influxdb.FindOptions], a pointer to an
    [influxdb.OperationLogEntry] and to its response, an authorizer and
    [context.Context]. *)
Context {UserFields UserUpdate FindOptions OperationLogEntry LogEntryResponse
         Authorizer Ctx : Type}.

(** The [Code] of an [influxdb.Error]: the zero value, the codes this file
    names, and any other. *)
Inductive Code : Type :=
| NoCode
| EInvalid
| ENotFound
| OtherCode (name : string).

(** Go [error] values by dynamic type: an [*influxdb.Error], an error made
    by [fmt.Errorf], or anything else.  A nil error is [None]. *)
Inductive error : Type :=
| InfluxErr (code : Code) (Msg Op : string) (Err : option error)
| Errorf (msg : string)
| OtherErr (msg : string).

(** [influxdb.User]. *)
Record User : Type := mkUser {
  User_ID : ID;
  User_Status : string;
  User_fields : UserFields
}.

(** [UserResponse] is the response of user. *)
Record UserResponse : Type := mkUserResponse {
  UserResponse_Links : gmap string string;
  UserResponse_User : User
}.

(** [usersResponse]; [Users] is a slice of pointers. *)
Record usersResponse : Type := mkUsersResponse {
  usersResponse_Links : gmap string string;
  usersResponse_Users : list (option UserResponse)
}.

(** [operationLogResponse], as [newUserLogResponse] fills it. *)
Record operationLogResponse : Type := mkOperationLogResponse {
  operationLogResponse_Links : gmap string string;
  operationLogResponse_Logs : list LogEntryResponse
}.

(** [influxdb.UserFilter]: both fields are pointers. *)
Record UserFilter : Type := mkUserFilter {
  filter_ID : option ID;
  filter_Name : option string
}.

(** [passwordResetRequest] *)
Record passwordResetRequest : Type := mkPasswordResetRequest {
  Username : string;
  PasswordOld : string;
  PasswordNew : string
}.

(** [getUserLogRequest] *)
Record getUserLogRequest : Type := mkGetUserLogRequest {
  log_UserID : ID;
  log_opts : FindOptions
}.

(** [patchUserRequest] *)
Record patchUserRequest : Type := mkPatchUserRequest {
  patch_Update : UserUpdate;
  patch_UserID : ID
}.

(** The part of [*http.Request] the handlers read: the body, the context,
    the parsed query of the URL and the result of [r.BasicAuth()]. *)
Record Request : Type := mkRequest {
  Body : string;
  Context_ : Ctx;
  Query : gmap string (list string);
  BasicAuth : option (string * string)
}.

(** Functions of the repository and of its libraries whose code is not part
    of the file.  Results are Go result tuples. *)
Record Externals : Type := mkExternals {
  IDFromString : string -> option ID * option error;
  (* i.DecodeFromString(id) on a zero ID: i afterwards, and the error *)
  ID_DecodeFromString : string -> ID * option error;
  ID_String : ID -> string;
  ParamsFromContext : Ctx -> list (string * string);
  GetAuthorizer : Ctx -> option Authorizer * option error;
  GetUserID : Authorizer -> ID;
  Active : string;
  (* json decoders on the request body: the decoded value and the error *)
  json_Decode_password : string -> string * option error;
  json_Decode_User : string -> User * option error;
  json_Decode_UserUpdate : string -> UserUpdate * option error;
  UserUpdate_Valid : UserUpdate -> option error;
  decodeFindOptions : Request -> option FindOptions * option error;
  newOperationLogEntryResponse : OperationLogEntry -> LogEntryResponse;
  findOptionParams : list FindOptions -> list (string * string);
  OpFindUser : string
}.

(** What [fmt.Sprint] is asked to print for a debug entry. *)
Inductive logged : Type :=
| LoggedUser (u : option User)
| LoggedUsers (us : list (option User))
| LoggedID (id : ID)
| LoggedEntries (es : list OperationLogEntry).

(** What [encodeResponse] is asked to encode. *)
Inductive body : Type :=
| UserBody (res : UserResponse)
| UsersBody (res : usersResponse)
| LogBody (res : operationLogResponse).

(** The operations of handlers and client on their collaborators. *)
Inductive op : Type :=
| SetPassword (ctx : Ctx) (userID : ID) (password : string)
| CompareAndSetPassword (ctx : Ctx) (userID : ID) (old new : string)
| CreateUser (ctx : Ctx) (u : User)
| FindUserByID (ctx : Ctx) (id : ID)
| DeleteUser (ctx : Ctx) (id : ID)
| GetUserOperationLog (ctx : Ctx) (id : ID) (opts : FindOptions)
| SvcFindUsers (ctx : Ctx) (filter : UserFilter)
| UpdateUser (ctx : Ctx) (id : ID) (upd : UserUpdate)
| LogDebug (msg : string) (fields : list (string * logged))
| HandleHTTPError (ctx : Ctx) (err : option error)
| WriteHeader (code : Z)
| EncodeResponse (ctx : Ctx) (code : Z) (res : body)
| ClientGetUsers (ctx : Ctx) (path : string) (params : list (string * string)).

(** What each operation gives back.  [CreateUser] gives the user its
    argument points to as the call leaves it; [ClientGetUsers] gives the
    [usersResponse] as [DecodeJSON] leaves it. *)
Definition answer (o : op) : Type :=
  match o with
  | SetPassword _ _ _ => option error
  | CompareAndSetPassword _ _ _ _ => option error
  | CreateUser _ _ => (User * option error)%type
  | FindUserByID _ _ => (option User * option error)%type
  | DeleteUser _ _ => option error
  | GetUserOperationLog _ _ _ => (list OperationLogEntry * nat * option error)%type
  | SvcFindUsers _ _ => (list (option User) * nat * option error)%type
  | UpdateUser _ _ _ => (option User * option error)%type
  | EncodeResponse _ _ _ => option error
  | ClientGetUsers _ _ _ => (usersResponse * option error)%type
  | _ => unit
  end.

Inductive event : Type :=
| EvSetPassword (ctx : Ctx) (userID : ID) (password : string) (res : option error)
| EvCompareAndSetPassword (ctx : Ctx) (userID : ID) (old new : string) (res : option error)
| EvCreateUser (ctx : Ctx) (u : User) (res : User * option error)
| EvFindUserByID (ctx : Ctx) (id : ID) (res : option User * option error)
| EvDeleteUser (ctx : Ctx) (id : ID) (res : option error)
| EvGetUserOperationLog (ctx : Ctx) (id : ID) (opts : FindOptions)
    (res : list OperationLogEntry * nat * option error)
| EvSvcFindUsers (ctx : Ctx) (filter : UserFilter) (res : list (option User) * nat * option error)
| EvUpdateUser (ctx : Ctx) (id : ID) (upd : UserUpdate) (res : option User * option error)
| EvLogDebug (msg : string) (fields : list (string * logged))
| EvHandleHTTPError (ctx : Ctx) (err : option error)
| EvWriteHeader (code : Z)
| EvEncodeResponse (ctx : Ctx) (code : Z) (res : body) (err : option error)
| EvClientGetUsers (ctx : Ctx) (path : string) (params : list (string * string))
    (res : usersResponse * option error).

Definition record (o : op) : answer o -> event :=
  match o with
  | SetPassword c i p => EvSetPassword c i p
  | CompareAndSetPassword c i o n => EvCompareAndSetPassword c i o n
  | CreateUser c u => EvCreateUser c u
  | FindUserByID c i => EvFindUserByID c i
  | DeleteUser c i => EvDeleteUser c i
  | GetUserOperationLog c i o => EvGetUserOperationLog c i o
  | SvcFindUsers c f => EvSvcFindUsers c f
  | UpdateUser c i u => EvUpdateUser c i u
  | LogDebug m f => fun _ => EvLogDebug m f
  | HandleHTTPError c e => fun _ => EvHandleHTTPError c e
  | WriteHeader c => fun _ => EvWriteHeader c
  | EncodeResponse c k r => EvEncodeResponse c k r
  | ClientGetUsers c p q => EvClientGetUsers c p q
  end.

Inductive prog (R : Type) : Type :=
| Ret (r : R)
| Do (o : op) (k : answer o -> prog R).

Arguments Ret {R} r.
Arguments Do {R} o k.

Fixpoint bind {A B : Type} (p : prog A) (f : A -> prog B) : prog B :=
  match p with
  | Ret a => f a
  | Do o k => Do o (fun x => bind (k x) f)
  end.

Definition call (o : op) : prog (answer o) := Do o Ret.

#[global] Instance prog_ret : MRet prog := @Ret.
#[global] Instance prog_bind : MBind prog := fun A B f p => bind p f.

Definition oracle (W : Type) : Type := forall o : op, W -> answer o * W.

Fixpoint run {W R : Type} (h : oracle W) (p : prog R) (w : W) : R * list event * W :=
  match p with
  | Ret r => (r, [], w)
  | Do o k =>
      let '(a, w1) := h o w in
      let '(r, t, w2) := run h (k a) w1 in
      (r, record o a :: t, w2)
  end.

Fixpoint exec {R : Type} (p : prog R) (t : list event) (r : R) : Prop :=
  match p with
  | Ret r' => t = [] /\ r = r'
  | Do o k => exists (a : answer o) (t' : list event), t = record o a :: t' /\ exec (k a) t' r
  end.

(** What a function with results gives: its results, or a panic. *)
Inductive outcome (A : Type) : Type :=
| Returns (a : A)
| Panics (what : string).

Arguments Returns {A} a.
Arguments Panics {A} what.

(** ** Library functions *)

(** [httprouter.Params.ByName]: the value of the first parameter with the
    given key, or "". *)
Fixpoint Params_ByName (ps : list (string * string)) (name : string) : string :=
  match ps with
  | [] => ""
  | (key, value) :: rest => if String.eqb key name then value else Params_ByName rest name
  end.

(** [url.Values.Get]: the first value stored under the key, or "". *)
Definition Values_Get (v : gmap string (list string)) (key : string) : string :=
  match v !! key with
  | Some (value :: _) => value
  | _ => ""
  end.

Definition StatusNoContent : Z := 204.

Definition prefixUsers : string := "/api/v2/users".

(** ** Response builders *)

Variable ext : Externals.

Definition not_nil (err : option error) : bool :=
  match err with
  | Some _ => true
  | None => false
  end.

(** [func newUserResponse(u *influxdb.User) *UserResponse]; [None] when the
    nil pointer is dereferenced. *)
Definition newUserResponse (u : option User) : option UserResponse :=
  match u with
  | None => None
  | Some u =>
      Some (mkUserResponse
              {[ "self" := "/api/v2/users/" +:+ ID_String ext (User_ID u);
                 "logs" := "/api/v2/users/" +:+ ID_String ext (User_ID u) +:+ "/logs" ]}
              u)
  end.

(** The loop of [newUsersResponse], started with the responses appended so far. *)
Fixpoint newUsersResponse_loop (users : list (option User)) (acc : list (option UserResponse))
  : option (list (option UserResponse)) :=
  match users with
  | [] => Some acc
  | user :: rest =>
      match newUserResponse user with
      | None => None
      | Some res => newUsersResponse_loop rest (acc ++ [Some res])
      end
  end.

(** [func newUsersResponse(users []*influxdb.User) *usersResponse] *)
Definition newUsersResponse (users : list (option User)) : option usersResponse :=
  match newUsersResponse_loop users [] with
  | None => None
  | Some rs => Some (mkUsersResponse {[ "self" := "/api/v2/users" ]} rs)
  end.

(** [func (us usersResponse) ToInfluxdb() []*influxdb.User]: the addresses
    of the users inside the responses; [None] when an entry is nil. *)
Fixpoint ToInfluxdb_loop (rs : list (option UserResponse)) : option (list (option User)) :=
  match rs with
  | [] => Some []
  | None :: _ => None
  | Some res :: rest =>
      match ToInfluxdb_loop rest with
      | None => None
      | Some users => Some (Some (UserResponse_User res) :: users)
      end
  end.

Definition ToInfluxdb (us : usersResponse) : option (list (option User)) :=
  ToInfluxdb_loop (usersResponse_Users us).

(** [func newUserLogResponse(id influxdb.ID, es []*influxdb.OperationLogEntry)] *)
Definition newUserLogResponse (id : ID) (es : list OperationLogEntry) : operationLogResponse :=
  mkOperationLogResponse
    {[ "self" := "/api/v2/users/" +:+ ID_String ext id +:+ "/logs" ]}
    (map (newOperationLogEntryResponse ext) es).

(** ** Request decoders *)

(** [func decodePasswordResetRequest(r *http.Request)] *)
Definition decodePasswordResetRequest (r : Request)
  : option passwordResetRequest * option error :=
  match BasicAuth r with
  | None => (None, Some (Errorf "invalid basic auth"))
  | Some (u, o) =>
      let '(password, err) := json_Decode_password ext (Body r) in
      if not_nil err then (None, Some (InfluxErr EInvalid "" "" err))
      else (Some (mkPasswordResetRequest u o password), None)
  end.

(** [func decodePostUserRequest(ctx, r)] *)
Definition decodePostUserRequest (r : Request) : option User * option error :=
  let '(b, err) := json_Decode_User ext (Body r) in
  if not_nil err then (None, err) else (Some b, None).

(** The start shared by the decoders of requests on one user: the id of
    the route, read with [DecodeFromString]. *)
Definition decodeUserID (ctx : Ctx) : option ID * option error :=
  let id := Params_ByName (ParamsFromContext ext ctx) "id" in
  if String.eqb id "" then (None, Some (InfluxErr EInvalid "url missing id" "" None))
  else
    let '(i, err) := ID_DecodeFromString ext id in
    if not_nil err then (None, err) else (Some i, None).

(** [func decodeGetUserRequest(ctx, r)] *)
Definition decodeGetUserRequest (ctx : Ctx) (r : Request) : option ID * option error :=
  decodeUserID ctx.

(** [func decodeDeleteUserRequest(ctx, r)] *)
Definition decodeDeleteUserRequest (ctx : Ctx) (r : Request) : option ID * option error :=
  decodeUserID ctx.

(** [func decodeGetUserLogRequest(ctx, r)];
    [*opts] panics on a nil pointer. *)
Definition decodeGetUserLogRequest (ctx : Ctx) (r : Request)
  : outcome (option getUserLogRequest * option error) :=
  match decodeUserID ctx with
  | (Some i, None) =>
      let '(opts, err) := decodeFindOptions ext r in
      if not_nil err then Returns (None, err)
      else
        match opts with
        | None => Panics "nil FindOptions dereferenced"
        | Some opts => Returns (Some (mkGetUserLogRequest i opts), None)
        end
  | (_, err) => Returns (None, err)
  end.

(** [func decodeGetUsersRequest(ctx, r)] *)
Definition decodeGetUsersRequest (r : Request) : option UserFilter * option error :=
  let userID := Values_Get (Query r) "id" in
  let '(filterID, err) :=
    if negb (String.eqb userID "") then IDFromString ext userID else (None, None) in
  if not_nil err then (None, err)
  else
    let name := Values_Get (Query r) "name" in
    let filterName := if negb (String.eqb name "") then Some name else None in
    (Some (mkUserFilter filterID filterName), None).

(** [func decodePatchUserRequest(ctx, r)] *)
Definition decodePatchUserRequest (ctx : Ctx) (r : Request)
  : option patchUserRequest * option error :=
  match decodeUserID ctx with
  | (Some i, None) =>
      let '(upd, err) := json_Decode_UserUpdate ext (Body r) in
      if not_nil err then (None, err)
      else
        let err := UserUpdate_Valid ext upd in
        if not_nil err then (None, err)
        else (Some (mkPatchUserRequest upd i), None)
  | (_, err) => (None, err)
  end.

(** ** Handlers *)

(** [func (h *UserHandler) handlePostUserPassword(w, r)].  The bodies of
    [passwordSetRequest] and [passwordResetRequestBody] have the same one
    field and go through the same decoder. *)
Definition handlePostUserPassword (r : Request) : prog completion :=
  let ctx := Context_ r in
  let '(password, err) := json_Decode_password ext (Body r) in
  if not_nil err then
    call (HandleHTTPError ctx (Some (InfluxErr EInvalid "" "" err))) ;;
    mret Done
  else
  let params := ParamsFromContext ext ctx in
  let '(userID, err) := IDFromString ext (Params_ByName params "id") in
  if not_nil err then
    call (HandleHTTPError ctx (Some (InfluxErr NoCode
            "invalid user ID provided in route" "" None))) ;;
    mret Done
  else
  match userID with
  | None => mret (Panic "nil userID dereferenced")
  | Some userID =>
  err ← call (SetPassword ctx userID password) ;
  if not_nil err then
    call (HandleHTTPError ctx err) ;;
    mret Done
  else
  call (WriteHeader StatusNoContent) ;;
  mret Done
  end.

(** [func (h *UserHandler) putPassword(ctx, w, r) (username string, err error)].
    The results are named and [err] is assigned by both short variable
    declarations, so the bare [return] after an id that does not parse
    gives back "" and the error of [IDFromString]. *)
Definition putPassword (ctx : Ctx) (r : Request) : prog (outcome (string * option error)) :=
  let '(req, err) := decodePasswordResetRequest r in
  if not_nil err then mret (Returns ("", err))
  else
  let params := ParamsFromContext ext (Context_ r) in
  let '(userID, err) := IDFromString ext (Params_ByName params "id") in
  if not_nil err then
    call (HandleHTTPError (Context_ r) (Some (InfluxErr NoCode
            "invalid user ID provided in route" "" None))) ;;
    mret (Returns ("", err))
  else
  match userID, req with
  | None, _ => mret (Panics "nil userID dereferenced")
  | _, None => mret (Panics "nil request dereferenced")
  | Some userID, Some req =>
  err ← call (CompareAndSetPassword ctx userID (PasswordOld req) (PasswordNew req)) ;
  if not_nil err then mret (Returns ("", err))
  else mret (Returns (Username req, None))
  end.

(** [func (h *UserHandler) handlePutUserPassword(w, r)] *)
Definition handlePutUserPassword (r : Request) : prog completion :=
  let ctx := Context_ r in
  res ← putPassword ctx r ;
  match res with
  | Panics what => mret (Panic what)
  | Returns (_, err) =>
      if not_nil err then
        call (HandleHTTPError ctx err) ;;
        mret Done
      else
      call (LogDebug "User password updated" []) ;;
      call (WriteHeader StatusNoContent) ;;
      mret Done
  end.

(** The user [handlePostUser] hands to [CreateUser]: an empty status
    becomes [influxdb.Active]. *)
Definition with_default_status (u : User) : User :=
  if String.eqb (User_Status u) "" then mkUser (User_ID u) (Active ext) (User_fields u)
  else u.

(** What a handler does with the error of [encodeResponse]. *)
Definition encoded_or_handled (ctx : Ctx) (err : option error) : prog completion :=
  if not_nil err then
    call (HandleHTTPError ctx err) ;;
    mret Done
  else mret Done.

(** [func (h *UserHandler) handlePostUser(w, r)] *)
Definition handlePostUser (r : Request) : prog completion :=
  let ctx := Context_ r in
  let '(req, err) := decodePostUserRequest r in
  if not_nil err then
    call (HandleHTTPError ctx err) ;;
    mret Done
  else
  match req with
  | None => mret (Panic "nil request dereferenced")
  | Some user =>
  '(user, err) ← call (CreateUser ctx (with_default_status user)) ;
  if not_nil err then
    call (HandleHTTPError ctx err) ;;
    mret Done
  else
  call (LogDebug "User created" [("user", LoggedUser (Some user))]) ;;
  match newUserResponse (Some user) with
  | None => mret (Panic "nil user dereferenced")
  | Some res =>
  err ← call (EncodeResponse ctx Go.StatusCreated (UserBody res)) ;
  encoded_or_handled ctx err
  end
  end.

(** [func (h *UserHandler) handleGetMe(w, r)] *)
Definition handleGetMe (r : Request) : prog completion :=
  let ctx := Context_ r in
  let '(a, err) := GetAuthorizer ext ctx in
  if not_nil err then
    call (HandleHTTPError ctx err) ;;
    mret Done
  else
  match a with
  | None => mret (Panic "GetUserID on a nil Authorizer")
  | Some a =>
  let id := GetUserID ext a in
  '(user, err) ← call (FindUserByID ctx id) ;
  if not_nil err then
    call (HandleHTTPError ctx err) ;;
    mret Done
  else
  match newUserResponse user with
  | None => mret (Panic "nil user dereferenced")
  | Some res =>
  err ← call (EncodeResponse ctx Go.StatusOK (UserBody res)) ;
  encoded_or_handled ctx err
  end
  end.

(** [func (h *UserHandler) handleGetUser(w, r)] *)
Definition handleGetUser (r : Request) : prog completion :=
  let ctx := Context_ r in
  let '(req, err) := decodeGetUserRequest ctx r in
  if not_nil err then
    call (HandleHTTPError ctx err) ;;
    mret Done
  else
  match req with
  | None => mret (Panic "nil request dereferenced")
  | Some userID =>
  '(b, err) ← call (FindUserByID ctx userID) ;
  if not_nil err then
    call (HandleHTTPError ctx err) ;;
    mret Done
  else
  call (LogDebug "User retrieved" [("user", LoggedUser b)]) ;;
  match newUserResponse b with
  | None => mret (Panic "nil user dereferenced")
  | Some res =>
  err ← call (EncodeResponse ctx Go.StatusOK (UserBody res)) ;
  encoded_or_handled ctx err
  end
  end.

(** [func (h *UserHandler) handleDeleteUser(w, r)] *)
Definition handleDeleteUser (r : Request) : prog completion :=
  let ctx := Context_ r in
  let '(req, err) := decodeDeleteUserRequest ctx r in
  if not_nil err then
    call (HandleHTTPError ctx err) ;;
    mret Done
  else
  match req with
  | None => mret (Panic "nil request dereferenced")
  | Some userID =>
  err ← call (DeleteUser ctx userID) ;
  if not_nil err then
    call (HandleHTTPError ctx err) ;;
    mret Done
  else
  call (LogDebug "User deleted" [("userID", LoggedID userID)]) ;;
  call (WriteHeader StatusNoContent) ;;
  mret Done
  end.

(** [func (h *UserHandler) handleGetUserLog(w, r)] *)
Definition handleGetUserLog (r : Request) : prog completion :=
  let ctx := Context_ r in
  match decodeGetUserLogRequest ctx r with
  | Panics what => mret (Panic what)
  | Returns (req, err) =>
  if not_nil err then
    call (HandleHTTPError ctx err) ;;
    mret Done
  else
  match req with
  | None => mret (Panic "nil request dereferenced")
  | Some req =>
  '(log, _, err) ← call (GetUserOperationLog ctx (log_UserID req) (log_opts req)) ;
  if not_nil err then
    call (HandleHTTPError ctx err) ;;
    mret Done
  else
  call (LogDebug "User log retrieved" [("log", LoggedEntries log)]) ;;
  err ← call (EncodeResponse ctx Go.StatusOK
                (LogBody (newUserLogResponse (log_UserID req) log))) ;
  encoded_or_handled ctx err
  end
  end.

(** [func (h *UserHandler) handleGetUsers(w, r)] *)
Definition handleGetUsers (r : Request) : prog completion :=
  let ctx := Context_ r in
  let '(req, err) := decodeGetUsersRequest r in
  if not_nil err then
    call (HandleHTTPError ctx err) ;;
    mret Done
  else
  match req with
  | None => mret (Panic "nil request dereferenced")
  | Some filter =>
  '(users, _, err) ← call (SvcFindUsers ctx filter) ;
  if not_nil err then
    call (HandleHTTPError ctx err) ;;
    mret Done
  else
  call (LogDebug "Users retrieved" [("users", LoggedUsers users)]) ;;
  match newUsersResponse users with
  | None => mret (Panic "nil user dereferenced")
  | Some res =>
  err ← call (EncodeResponse ctx Go.StatusOK (UsersBody res)) ;
  encoded_or_handled ctx err
  end
  end.

(** [func (h *UserHandler) handlePatchUser(w, r)] *)
Definition handlePatchUser (r : Request) : prog completion :=
  let ctx := Context_ r in
  let '(req, err) := decodePatchUserRequest ctx r in
  if not_nil err then
    call (HandleHTTPError ctx err) ;;
    mret Done
  else
  match req with
  | None => mret (Panic "nil request dereferenced")
  | Some req =>
  '(b, err) ← call (UpdateUser ctx (patch_UserID req) (patch_Update req)) ;
  if not_nil err then
    call (HandleHTTPError ctx err) ;;
    mret Done
  else
  call (LogDebug "Users updated" [("user", LoggedUser b)]) ;;
  match newUserResponse b with
  | None => mret (Panic "nil user dereferenced")
  | Some res =>
  err ← call (EncodeResponse ctx Go.StatusOK (UserBody res)) ;
  encoded_or_handled ctx err
  end
  end.

(** ** The HTTP client *)

(** The query parameters [FindUsers] sends for a filter. *)
Definition filter_params (filter : UserFilter) (params : list (string * string))
  : list (string * string) :=
  let params :=
    match filter_ID filter with
    | Some id => (params ++ [("id", ID_String ext id)])%list
    | None => params
    end in
  match filter_Name filter with
  | Some name => (params ++ [("name", name)])%list
  | None => params
  end.

(** [func (s *UserService) FindUsers(ctx, filter, opt ...influxdb.FindOptions)] *)
Definition FindUsers (ctx : Ctx) (filter : UserFilter) (opt : list FindOptions)
  : prog (outcome (list (option User) * nat * option error)) :=
  let params := filter_params filter (findOptionParams ext opt) in
  '(r, err) ← call (ClientGetUsers ctx prefixUsers params) ;
  if not_nil err then mret (Returns ([], 0%nat, err))
  else
    match ToInfluxdb r with
    | None => mret (Panics "nil UserResponse dereferenced")
    | Some us => mret (Returns (us, length us, None))
    end.

(** [func (s *UserService) FindUser(ctx, filter)], for a service with the
    given [OpPrefix]. *)
Definition FindUser (OpPrefix : string) (ctx : Ctx) (filter : UserFilter)
  : prog (outcome (option User * option error)) :=
  match filter_ID filter, filter_Name filter with
  | None, None =>
      mret (Returns (None, Some (InfluxErr ENotFound "user not found" "" None)))
  | _, _ =>
      res ← FindUsers ctx filter [] ;
      match res with
      | Panics what => mret (Panics what)
      | Returns (users, n, err) =>
          if not_nil err then
            mret (Returns (None, Some (InfluxErr NoCode "" (OpPrefix +:+ OpFindUser ext) err)))
          else if Nat.eqb n 0 then
            mret (Returns (None, Some (InfluxErr ENotFound "no results found"
                                         (OpPrefix +:+ OpFindUser ext) None)))
          else
            match users with
            | [] => mret (Panics "index out of range")
            | u :: _ => mret (Returns (u, None))
            end
      end
  end.

(** ** What a trace shows *)

Definition handled (t : list event) : list (option error) :=
  omap (fun e => match e with
                 | EvHandleHTTPError _ err => Some err
                 | _ => None
                 end) t.

(** The statuses written, by [WriteHeader] or through [encodeResponse]. *)
Definition statuses (t : list event) : list Z :=
  omap (fun e => match e with
                 | EvWriteHeader code => Some code
                 | EvEncodeResponse _ code _ _ => Some code
                 | _ => None
                 end) t.

Definition encoded (t : list event) : list body :=
  omap (fun e => match e with
                 | EvEncodeResponse _ _ res _ => Some res
                 | _ => None
                 end) t.

(** A call of one of the backing services, or a request of the client. *)
Definition is_service_call (e : event) : bool :=
  match e with
  | EvLogDebug _ _ | EvHandleHTTPError _ _ | EvWriteHeader _ | EvEncodeResponse _ _ _ _ => false
  | _ => true
  end.

Definition service_calls (t : list event) : list event := List.filter is_service_call t.

End Model.

Arguments Returns {A} a.
Arguments Panics {A} what.

End UserHTTP.

(** ** A concrete instance

    Payloads are strings, an authorizer is the id of its user and a context
    carries the authorizer, if any.  The request bodies are a few fixed
    texts; the error handler follows the usual code-to-status table. *)

Definition demo_IDFromString (s : string) : option ID * option (@error string) :=
  if String.eqb s "0000000000000001" then (Some 1%N, None)
  else if String.eqb s "00000000000000ff" then (Some 255%N, None)
  else (None, Some (OtherErr "id must have a length of 16 bytes")).

Definition demo_GetAuthorizer (ctx : option N) : option N * option (@error string) :=
  match ctx with
  | Some a => (Some a, None)
  | None => (None, Some (InfluxErr EInternal "authorizer not found on context" None))
  end.

Definition demo_IsParseErr (err : option (@error string)) : bool :=
  match err with
  | Some (ParseErr _) => true
  | _ => false
  end.

Definition demo_Encoding_String (e : Encoding) : string :=
  match e with
  | EncodingJSON => "json"
  | EncodingJsonnet => "jsonnet"
  | EncodingSource => "source"
  | EncodingYAML => "yaml"
  end.

Definition demo_zero_apply : ReqApplyPkg :=
  mkReqApplyPkg false "" (mkPkgRemote "" "") "" ∅.

Definition demo_decode_apply (body : string) : ReqApplyPkg * option (@error string) :=
  if String.eqb body "dry-run" then
    (mkReqApplyPkg true "0000000000000001" (mkPkgRemote "" "") "{}" ∅, None)
  else if String.eqb body "apply" then
    (mkReqApplyPkg false "0000000000000001" (mkPkgRemote "" "") "{}"
       {[ "token" := "s3cret" ]}, None)
  else if String.eqb body "remote" then
    (mkReqApplyPkg false "0000000000000001"
       (mkPkgRemote "https://example.com/pkg.yml" "") "" ∅, None)
  else if String.eqb body "bad-org" then
    (mkReqApplyPkg false "not-an-id" (mkPkgRemote "" "") "{}" ∅, None)
  else (demo_zero_apply, Some (OtherErr "unexpected end of input")).

Definition demo_decode_create (body : string)
  : @ReqCreatePkg string * option (@error string) :=
  if String.eqb body "nothing" then (mkReqCreatePkg [] [], None)
  else if String.eqb body "mixed" then
    (mkReqCreatePkg ["not-an-id"; "0000000000000001"; "zz"; "00000000000000ff"] ["bucket"],
     None)
  else if String.eqb body "malformed-only" then
    (mkReqCreatePkg ["not-an-id"] [], None)
  else (mkReqCreatePkg [] [], Some (OtherErr "unexpected end of input")).

Definition demo_HTTPErrorStatus (err : option (@error string)) : Z :=
  match err with
  | Some (InfluxErr EInternal _ _) => 500
  | Some (InfluxErr EInvalid _ _) => 400
  | Some (InfluxErr EUnprocessableEntity _ _) => 422
  | Some (InfluxErr EConflict _ _) => 422
  | Some (InfluxErr (ECode _) _ _) => 400
  | _ => 500
  end.

Definition demo_ext : @Externals string string string string N (option N) :=
  {| IDFromString := demo_IDFromString;
     GetAuthorizer := demo_GetAuthorizer;
     GetUserID := fun a => a;
     IsParseErr := demo_IsParseErr;
     Encoding_String := demo_Encoding_String;
     Sprintf := fun format _ => format;
     json_Decode_create := demo_decode_create;
     json_Decode_apply := demo_decode_apply;
     yaml_Decode_apply := demo_decode_apply;
     jsonnet_Decode_apply := demo_decode_apply;
     Pkg_Objects := fun pkg => Some [pkg];
     HTTPErrorStatus := demo_HTTPErrorStatus |}.

(** Collaborators that answer the dry run with [dry] and the apply with
    [app], parse and create without error, and encode without error. *)
Definition demo_svc (dry : string * string * option (@error string))
    (app : string * option (@error string))
  : @oracle string string string string string string (option N) unit :=
  fun o w =>
    match o return answer o * unit with
    | Parse _ _ => ((Some "pkg", None), tt)
    | SvcDryRun _ _ _ _ => (dry, tt)
    | SvcApply _ _ _ _ _ => (app, tt)
    | SvcCreatePkg _ _ => ((Some "pkg", None), tt)
    | Encode _ _ => (None, tt)
    | LoggerError _ _ => (tt, tt)
    | HandleHTTPError _ _ => (tt, tt)
    | HeaderSet _ _ => (tt, tt)
    | WriteHeader _ => (tt, tt)
    | BodyClose => (tt, tt)
    end.

Definition demo_request (contentType body : string) : @Request (option N) :=
  mkRequest {[ "Content-Type" := [contentType] ]} body (Some 7%N).

Definition demo_trace (dry : string * string * option (@error string))
    (app : string * option (@error string)) (contentType body : string) : list event :=
  trace_of (demo_svc dry app) (applyPkg demo_ext (demo_request contentType body)) tt.

Definition demo_create_trace (body : string) : list event :=
  trace_of (demo_svc ("", "", None) ("", None))
    (createPkg demo_ext (demo_request "application/json" body)) tt.

Definition demo_parse_err : option (@error string) :=
  Some (ParseErr ["bucket name is required"; "label color is invalid"]).

Definition demo_hard_err : option (@error string) :=
  Some (InfluxErr EInternal "store is unavailable" None).

(** Collaborators with every answer given: of [Parse], of the dry run, of
    the apply, of [CreatePkg] and of the encoder. *)
Definition demo_svc_full (parsed : option string * option (@error string))
    (dry : string * string * option (@error string))
    (app : string * option (@error string))
    (created : option string * option (@error string))
    (enc : option (@error string))
  : @oracle string string string string string string (option N) unit :=
  fun o w =>
    match o return answer o * unit with
    | Parse _ _ => (parsed, tt)
    | SvcDryRun _ _ _ _ => (dry, tt)
    | SvcApply _ _ _ _ _ => (app, tt)
    | SvcCreatePkg _ _ => (created, tt)
    | Encode _ _ => (enc, tt)
    | LoggerError _ _ => (tt, tt)
    | HandleHTTPError _ _ => (tt, tt)
    | HeaderSet _ _ => (tt, tt)
    | WriteHeader _ => (tt, tt)
    | BodyClose => (tt, tt)
    end.

(** A request without authorizer on its context. *)
Definition demo_request_anonymous (contentType body : string) : @Request (option N) :=
  mkRequest {[ "Content-Type" := [contentType] ]} body None.

Definition demo_apply_trace
    (h : @oracle string string string string string string (option N) unit)
    (r : @Request (option N)) : list event :=
  trace_of h (applyPkg demo_ext r) tt.

Definition demo_export_trace
    (h : @oracle string string string string string string (option N) unit)
    (r : @Request (option N)) : list event :=
  trace_of h (createPkg demo_ext r) tt.

Definition demo_eof : @error string := OtherErr "unexpected end of input".

(** ** A concrete instance of the users transport

    The other fields of a user are its name, an update and a log entry are
    texts, find options are a limit, an authorizer is the id of its user,
    and a context carries the authorizer and the parameters of the route. *)

Definition udemo_IDFromString (s : string) : option ID * option UserHTTP.error :=
  if String.eqb s "0000000000000001" then (Some 1%N, None)
  else (None, Some (UserHTTP.OtherErr "id must have a length of 16 bytes")).

Definition udemo_DecodeFromString (s : string) : ID * option UserHTTP.error :=
  if String.eqb s "0000000000000001" then (1%N, None)
  else (0%N, Some (UserHTTP.OtherErr "id must have a length of 16 bytes")).

Definition udemo_ID_String (id : ID) : string :=
  if N.eqb id 1 then "0000000000000001" else "00000000000000ff".

Definition udemo_ext
  : @UserHTTP.Externals string string nat string string N
      (option N * list (string * string)) :=
  {| UserHTTP.IDFromString := udemo_IDFromString;
     UserHTTP.ID_DecodeFromString := udemo_DecodeFromString;
     UserHTTP.ID_String := udemo_ID_String;
     UserHTTP.ParamsFromContext := snd;
     UserHTTP.GetAuthorizer := fun ctx =>
       match fst ctx with
       | Some a => (Some a, None)
       | None => (None, Some (UserHTTP.OtherErr "authorizer not found on context"))
       end;
     UserHTTP.GetUserID := fun a => a;
     UserHTTP.Active := "active";
     UserHTTP.json_Decode_password := fun body =>
       if String.eqb body "" then ("", Some (UserHTTP.OtherErr "EOF")) else (body, None);
     UserHTTP.json_Decode_User := fun body =>
       if String.eqb body "" then (UserHTTP.mkUser 0%N "" "", Some (UserHTTP.OtherErr "EOF"))
       else (UserHTTP.mkUser 0%N "" body, None);
     UserHTTP.json_Decode_UserUpdate := fun body =>
       (body, if String.eqb body "" then Some (UserHTTP.OtherErr "EOF") else None);
     UserHTTP.UserUpdate_Valid := fun _ => None;
     UserHTTP.decodeFindOptions := fun _ => (Some 20%nat, None);
     UserHTTP.newOperationLogEntryResponse := fun e => e;
     UserHTTP.findOptionParams := fun opts =>
       match opts with
       | [] => []
       | limit :: _ => [("limit", "20")]
       end;
     UserHTTP.OpFindUser := "FindUser" |}.

Definition udemo_alice : @UserHTTP.User string := UserHTTP.mkUser 1%N "active" "alice".
Definition udemo_bob : @UserHTTP.User string := UserHTTP.mkUser 255%N "inactive" "bob".

(** Collaborators that answer every call with the given error, look up
    [found], list [listed], create a user by giving it the id 1, and send
    [sent] to the client. *)
Definition udemo_svc (err : option UserHTTP.error) (found : option (@UserHTTP.User string))
    (listed : list (option (@UserHTTP.User string)))
    (sent : @UserHTTP.usersResponse string)
  : @UserHTTP.oracle string string nat string string (option N * list (string * string)) unit :=
  fun o w =>
    match o return UserHTTP.answer o * unit with
    | UserHTTP.SetPassword _ _ _ => (err, tt)
    | UserHTTP.CompareAndSetPassword _ _ _ _ => (err, tt)
    | UserHTTP.CreateUser _ u =>
        ((UserHTTP.mkUser 1%N (UserHTTP.User_Status u) (UserHTTP.User_fields u), err), tt)
    | UserHTTP.FindUserByID _ _ => ((found, err), tt)
    | UserHTTP.DeleteUser _ _ => (err, tt)
    | UserHTTP.GetUserOperationLog _ _ _ => ((["created"], 1%nat, err), tt)
    | UserHTTP.SvcFindUsers _ _ => ((listed, length listed, err), tt)
    | UserHTTP.UpdateUser _ _ _ => ((found, err), tt)
    | UserHTTP.EncodeResponse _ _ _ => (None, tt)
    | UserHTTP.ClientGetUsers _ _ _ => ((sent, err), tt)
    | UserHTTP.LogDebug _ _ => (tt, tt)
    | UserHTTP.HandleHTTPError _ _ => (tt, tt)
    | UserHTTP.WriteHeader _ => (tt, tt)
    end.

Definition udemo_ok : @UserHTTP.oracle string string nat string string
                        (option N * list (string * string)) unit :=
  udemo_svc None (Some udemo_alice) [Some udemo_alice; Some udemo_bob]
    (UserHTTP.mkUsersResponse ∅
       [UserHTTP.newUserResponse udemo_ext (Some udemo_alice);
        UserHTTP.newUserResponse udemo_ext (Some udemo_bob)]).

Definition udemo_failing : @UserHTTP.oracle string string nat string string
                             (option N * list (string * string)) unit :=
  udemo_svc (Some (UserHTTP.OtherErr "store is unavailable")) None []
    (UserHTTP.mkUsersResponse ∅ []).

(** A request on the route with the given id, by the authorizer 7. *)
Definition udemo_request (id body : string) (query : gmap string (list string))
    (auth : option (string * string))
  : @UserHTTP.Request (option N * list (string * string)) :=
  UserHTTP.mkRequest body (Some 7%N, [("org", "acme"); ("id", id)]) query auth.

Definition udemo_trace {R : Type}
    (h : @UserHTTP.oracle string string nat string string
           (option N * list (string * string)) unit)
    (p : UserHTTP.prog R) : list UserHTTP.event :=
  (UserHTTP.run h p tt).1.2.

(** ** Proof automation for runs *)

Ltac case_on x := first [ is_var x; destruct x | destruct x eqn:? ].

Ltac exec_open H :=
  unfold encJSONResp, encResp, ReqApplyPkg_Pkg, call in H;
  unfold mbind, prog_bind, mret, prog_ret in H;
  repeat (cbn [exec bind record not_nil] in H;
    lazymatch type of H with
    | exec (if ?b then _ else _) _ _ => case_on b
    | exec (match ?x with _ => _ end) _ _ => case_on x
    | exec (bind (if ?b then _ else _) _) _ _ => case_on b
    | exec (bind (match ?x with _ => _ end) _) _ _ => case_on x
    | @ex _ _ => let a := fresh "a" in let t := fresh "t" in
                 destruct H as (a & t & -> & H)
    | _ /\ _ => destruct H as [-> ->]
    end).

(** Splits a membership in an explicit trace into its cases and keeps the
    ones in which the events agree. *)
Ltac pick_event H :=
  simpl in H;
  repeat match type of H with
         | _ \/ _ => destruct H as [H | H]
         end;
  first [ contradiction | discriminate H | injection H as ?; subst ].

Ltac absurd_test :=
  solve [ simpl in *; congruence
        | match goal with
          | Hp : IsParseErr _ _ = _, Hb : context [IsParseErr _ _] |- _ =>
              rewrite Hp in Hb; simpl in Hb; rewrite ?andb_false_r in Hb; discriminate Hb
          end ].

Ltac trace_facts :=
  unfold no_call;
  repeat match goal with
         | |- _ /\ _ => split
         | |- @ex _ _ => eexists
         | |- Forall _ _ => constructor
         | |- _ => reflexivity
         end.

(** As [exec_open], for tests that sit below two binds. *)
Ltac exec_open_deep H :=
  unfold encJSONResp, encResp, ReqApplyPkg_Pkg, call in H;
  unfold mbind, prog_bind, mret, prog_ret in H;
  repeat (cbn [exec bind record not_nil] in H;
    lazymatch type of H with
    | exec (if ?b then _ else _) _ _ => case_on b
    | exec (match ?x with _ => _ end) _ _ => case_on x
    | exec (bind (if ?b then _ else _) _) _ _ => case_on b
    | exec (bind (match ?x with _ => _ end) _) _ _ => case_on x
    | exec (bind (bind (if ?b then _ else _) _) _) _ _ => case_on b
    | exec (bind (bind (match ?x with _ => _ end) _) _) _ _ => case_on x
    | @ex _ _ => let a := fresh "a" in let t := fresh "t" in
                 destruct H as (a & t & -> & H)
    | _ /\ _ => destruct H as [-> ->]
    end).

(** Turns the nil tests met on a path into equations. *)
Ltac nil_facts :=
  repeat match goal with
         | H : not_nil ?x = false |- _ =>
             is_var x; destruct x; [discriminate H | clear H]
         | H : not_nil ?x = true |- _ =>
             is_var x; destruct x; [clear H | discriminate H]
         end.

(** Opens the runs of a handler of the users transport. *)
Ltac user_exec_open H :=
  unfold UserHTTP.encoded_or_handled, UserHTTP.call in H;
  unfold mbind, UserHTTP.prog_bind, mret, UserHTTP.prog_ret in H;
  repeat (cbn [UserHTTP.exec UserHTTP.bind UserHTTP.record UserHTTP.not_nil] in H;
    lazymatch type of H with
    | UserHTTP.exec (if ?b then _ else _) _ _ => case_on b
    | UserHTTP.exec (match ?x with _ => _ end) _ _ => case_on x
    | UserHTTP.exec (UserHTTP.bind (if ?b then _ else _) _) _ _ => case_on b
    | UserHTTP.exec (UserHTTP.bind (match ?x with _ => _ end) _) _ _ => case_on x
    | UserHTTP.exec (UserHTTP.bind (UserHTTP.bind (if ?b then _ else _) _) _) _ _ => case_on b
    | UserHTTP.exec (UserHTTP.bind (UserHTTP.bind (match ?x with _ => _ end) _) _) _ _ =>
        case_on x
    | @ex _ _ => let a := fresh "a" in let t := fresh "t" in
                 destruct H as (a & t & -> & H)
    | _ /\ _ => destruct H as [-> ->]
    end).

Ltac user_nil_facts :=
  repeat match goal with
         | H : UserHTTP.not_nil ?x = false |- _ =>
             is_var x; destruct x; [discriminate H | clear H]
         | H : UserHTTP.not_nil ?x = true |- _ =>
             is_var x; destruct x; [clear H | discriminate H]
         end.

(** ** Runs and traces *)

Section Properties.

Context {Summary Diff ValidationErr Object ResourceToClone Pkg Authorizer Ctx : Type}.
Variable ext : @Externals ValidationErr Object ResourceToClone Pkg Authorizer Ctx.

Local Abbreviation svc := (@oracle Summary Diff ValidationErr Object ResourceToClone Pkg Ctx).
Local Abbreviation trace :=
  (list (@event Summary Diff ValidationErr Object ResourceToClone Pkg Ctx)).
Local Abbreviation handler :=
  (@prog Summary Diff ValidationErr Object ResourceToClone Pkg Ctx).

Lemma run_exec {W R : Type} (h : svc W) (p : prog R) (w : W) :
  exec p (trace_of h p w) (fst (fst (run h p w))).
Proof.
  unfold trace_of. revert w.
  induction p as [r | o k IH]; intros w; simpl.
  - split; reflexivity.
  - destruct (h o w) as [a w1] eqn:Ha.
    specialize (IH a w1).
    destruct (run h (k a) w1) as [[r t] w2]. simpl in *.
    exists a, t. split; [reflexivity | exact IH].
Qed.

Lemma run_exec_eq {W R : Type} (h : svc W) (p : prog R) (w w' : W) (r : R) (t : trace) :
  run h p w = (r, t, w') -> exec p t r.
Proof.
  intros Hrun. pose proof (run_exec h p w) as Hex.
  unfold trace_of in Hex. rewrite Hrun in Hex. exact Hex.
Qed.

(** ** The apply handler *)

Lemma ReqApplyPkg_Pkg_remote (rb : ReqApplyPkg) (encoding : Encoding) :
  URL (Remote rb) <> "" ->
  (ReqApplyPkg_Pkg rb encoding : handler _) =
  call (Parse (PkgRemote_Encoding (Remote rb)) (FromHTTPRequest (URL (Remote rb)))).
Proof.
  intros Hurl. unfold ReqApplyPkg_Pkg.
  destruct (String.eqb_spec (URL (Remote rb)) ""); [contradiction | reflexivity].
Qed.

Lemma ReqApplyPkg_Pkg_inline (rb : ReqApplyPkg) (encoding : Encoding) :
  URL (Remote rb) = "" ->
  (ReqApplyPkg_Pkg rb encoding : handler _) = call (Parse encoding (FromReader (RawPkg rb))).
Proof.
  intros Hurl. unfold ReqApplyPkg_Pkg. rewrite Hurl. reflexivity.
Qed.

Lemma decodeWithEncoding_encoding (r : Request) :
  (decodeWithEncoding ext r).1 = pkgEncoding (Header r).
Proof. reflexivity. Qed.

(** C2: in every run of the apply handler, a parse of the package reads
    from the remote URL with the encoding derived from the remote itself
    when the URL is non-empty, and reads the inline raw payload with the
    encoding derived from the request headers when the URL is empty; and
    the parse is made once the body is decoded, the org id is read and the
    authorizer is found. *)
Theorem applyPkg_package_source {W : Type} (h : svc W) (w w' : W) (r : Request)
    (c : completion) (t : trace) :
  run h (applyPkg ext r) w = (c, t, w') ->
  (forall encoding src res, In (EvParse encoding src res) t ->
     (URL (Remote (apply_reqBody ext r)) <> "" ->
        encoding = PkgRemote_Encoding (Remote (apply_reqBody ext r))
        /\ src = FromHTTPRequest (URL (Remote (apply_reqBody ext r))))
     /\ (URL (Remote (apply_reqBody ext r)) = "" ->
        encoding = pkgEncoding (Header r)
        /\ src = FromReader (RawPkg (apply_reqBody ext r))))
  /\ (forall auth,
        (decodeWithEncoding ext r).2.2 = None ->
        (IDFromString ext (OrgID (apply_reqBody ext r))).2 = None ->
        GetAuthorizer ext (Context_ r) = (Some auth, None) ->
        exists encoding src res rest, t = EvParse encoding src res :: rest).
Proof.
  intros Hrun. apply run_exec_eq in Hrun.
  pose proof (decodeWithEncoding_encoding r) as Henc.
  unfold applyPkg, apply_reqBody in *.
  destruct (decodeWithEncoding ext r) as [enc [reqBody derr]]. simpl in Henc. subst enc.
  split.
  - intros encoding src res Hin. simpl.
    exec_open Hrun; pick_event Hin.
    all: match goal with
         | H : negb (String.eqb ?u "") = _ |- _ =>
             destruct (String.eqb_spec u ""); simpl in H; try discriminate H
         end.
    all: split; intros; first [ contradiction | congruence | split; reflexivity ].
  - intros auth Hdec Hid Hauth. simpl in *. subst derr.
    rewrite Hauth in Hrun.
    destruct (IDFromString ext (OrgID reqBody)) as [p e]. simpl in Hid. subst e.
    exec_open Hrun.
    all: trace_facts.
Qed.

(** C3: when the request asks for a dry run only and the dry-run call
    returns no error, the status is 200, the one body encoded is the JSON
    of the dry-run diff and summary without errors (so the errors field is
    left out), and the apply capability is not called.  [IsParseErr] is
    taken not to classify a nil error as a parse error. *)
Theorem applyPkg_dry_run_only {W : Type} (h : svc W) (w w' : W) (r : Request)
    (c : completion) (t : trace) ctx orgID userID pkg sum diff :
  run h (applyPkg ext r) w = (c, t, w') ->
  DryRun (apply_reqBody ext r) = true ->
  IsParseErr ext None = false ->
  In (EvDryRun ctx orgID userID pkg (sum, diff, None)) t ->
  response_status ext t = Some 200
  /\ encoded t = [(JSONEnc, ApplyBody (mkRespApplyPkg diff sum []))]
  /\ has_errors_field (mkRespApplyPkg diff sum ([] : list ValidationErr)) = false
  /\ no_call is_apply_call t.
Proof.
  intros Hrun Hdry Hnil Hin.
  apply run_exec_eq in Hrun. unfold applyPkg, apply_reqBody in *.
  destruct (decodeWithEncoding ext r) as [enc [reqBody derr]]. simpl in Hdry.
  exec_open Hrun; pick_event Hin.
  all: try absurd_test.
  all: trace_facts.
Qed.

(** C4: when the dry-run call returns an error that [IsParseErr] classifies
    as a parse error, the status is 422, the one body encoded is the JSON
    of the diff and summary the dry-run call returned together with the
    validation errors taken from the error, and the apply capability is
    not called. *)
Theorem applyPkg_dry_run_parse_error {W : Type} (h : svc W) (w w' : W) (r : Request)
    (c : completion) (t : trace) ctx orgID userID pkg sum diff err :
  run h (applyPkg ext r) w = (c, t, w') ->
  In (EvDryRun ctx orgID userID pkg (sum, diff, err)) t ->
  IsParseErr ext err = true ->
  response_status ext t = Some 422
  /\ encoded t = [(JSONEnc, ApplyBody (mkRespApplyPkg diff sum (convertParseErr err)))]
  /\ no_call is_apply_call t.
Proof.
  intros Hrun Hin Hparse.
  apply run_exec_eq in Hrun. unfold applyPkg in Hrun.
  destruct (decodeWithEncoding ext r) as [enc [reqBody derr]].
  exec_open Hrun; pick_event Hin.
  all: try absurd_test.
  all: trace_facts.
Qed.

(** C5: when the apply call returns an error that [IsParseErr] classifies
    as a parse error, the status is 201 and the one body encoded is the
    JSON of the diff of the dry-run call, the summary of the apply call and
    the validation errors taken from the error; the request did not ask for
    a dry run only. *)
Theorem applyPkg_apply_parse_error {W : Type} (h : svc W) (w w' : W) (r : Request)
    (c : completion) (t : trace)
    ctx orgID userID pkg dsum diff derr ctx' orgID' userID' pkg' opts asum aerr :
  run h (applyPkg ext r) w = (c, t, w') ->
  In (EvDryRun ctx orgID userID pkg (dsum, diff, derr)) t ->
  In (EvApply ctx' orgID' userID' pkg' opts (asum, aerr)) t ->
  IsParseErr ext aerr = true ->
  response_status ext t = Some 201
  /\ encoded t = [(JSONEnc, ApplyBody (mkRespApplyPkg diff asum (convertParseErr aerr)))]
  /\ DryRun (apply_reqBody ext r) = false.
Proof.
  intros Hrun Hdry Happly Hparse.
  apply run_exec_eq in Hrun. unfold applyPkg, apply_reqBody in *.
  destruct (decodeWithEncoding ext r) as [enc [reqBody derr0]].
  exec_open Hrun; pick_event Hdry; pick_event Happly.
  all: try absurd_test.
  all: trace_facts.
  all: simpl; assumption.
Qed.

(** X4: a clean apply is answered with the same status 201: the one body
    encoded is the diff of the dry run and the summary of the apply,
    without errors. *)
Lemma applyPkg_apply_clean {W : Type} (h : svc W) (w w' : W) (r : Request)
    (c : completion) (t : trace)
    ctx orgID userID pkg dsum diff derr ctx' orgID' userID' pkg' opts asum :
  run h (applyPkg ext r) w = (c, t, w') ->
  In (EvDryRun ctx orgID userID pkg (dsum, diff, derr)) t ->
  In (EvApply ctx' orgID' userID' pkg' opts (asum, None)) t ->
  response_status ext t = Some 201
  /\ encoded t = [(JSONEnc, ApplyBody (mkRespApplyPkg diff asum []))].
Proof.
  intros Hrun Hdry Happly.
  apply run_exec_eq in Hrun. unfold applyPkg in Hrun.
  destruct (decodeWithEncoding ext r) as [enc [reqBody derr0]].
  exec_open Hrun; pick_event Hdry; pick_event Happly.
  all: try absurd_test.
  all: trace_facts.
Qed.

(** C6: when the dry-run call or the apply call returns a non-nil error
    that [IsParseErr] does not classify as a parse error, the run ends
    right after that call with the error logged and handed to the error
    handler, which alone decides the response; no body with a diff or a
    summary is encoded, and after a failed dry run no apply call is made. *)
Theorem applyPkg_hard_failure {W : Type} (h : svc W) (w w' : W) (r : Request)
    (c : completion) (t : trace) :
  run h (applyPkg ext r) w = (c, t, w') ->
  (forall ctx orgID userID pkg sum diff e,
     In (EvDryRun ctx orgID userID pkg (sum, diff, Some e)) t ->
     IsParseErr ext (Some e) = false ->
     (exists e0, t = [e0; EvDryRun ctx orgID userID pkg (sum, diff, Some e);
                      EvLoggerError "failed to dry run pkg" (Some e);
                      EvHandleHTTPError ctx (Some e)])
     /\ response_status ext t = Some (HTTPErrorStatus ext (Some e))
     /\ encoded t = []
     /\ no_call is_apply_call t)
  /\ (forall ctx orgID userID pkg opts sum e,
     In (EvApply ctx orgID userID pkg opts (sum, Some e)) t ->
     IsParseErr ext (Some e) = false ->
     (exists e0 e1, t = [e0; e1; EvApply ctx orgID userID pkg opts (sum, Some e);
                         EvLoggerError "failed to apply pkg" (Some e);
                         EvHandleHTTPError ctx (Some e)])
     /\ response_status ext t = Some (HTTPErrorStatus ext (Some e))
     /\ encoded t = []).
Proof.
  intros Hrun.
  apply run_exec_eq in Hrun. unfold applyPkg in Hrun.
  destruct (decodeWithEncoding ext r) as [enc [reqBody derr0]].
  split.
  - intros ctx orgID userID pkg sum diff e Hin Hparse.
    exec_open Hrun; pick_event Hin.
    all: try absurd_test.
    all: trace_facts.
  - intros ctx orgID userID pkg opts sum e Hin Hparse.
    exec_open Hrun; pick_event Hin.
    all: try absurd_test.
    all: trace_facts.
Qed.

(** C9: when the body is decoded and [IDFromString] reports an error for
    its orgID, the run consists of handing a conflict error to the error
    handler, so neither the dry-run nor the apply capability is called; the
    status is the one the error handler gives to a conflict, a 4xx for
    every handler that maps conflicts into that class. *)
Theorem applyPkg_invalid_org {W : Type} (h : svc W) (w w' : W) (r : Request)
    (c : completion) (t : trace) p e :
  run h (applyPkg ext r) w = (c, t, w') ->
  (decodeWithEncoding ext r).2.2 = None ->
  IDFromString ext (OrgID (apply_reqBody ext r)) = (p, Some e) ->
  (forall msg, 400 <= HTTPErrorStatus ext (Some (InfluxErr EConflict msg None)) < 500) ->
  t = [EvHandleHTTPError (Context_ r) (Some (InfluxErr EConflict
         (Sprintf ext "invalid organization ID provided: %q"
            [ArgString (OrgID (apply_reqBody ext r))]) None))]
  /\ (exists code, response_status ext t = Some code /\ 400 <= code < 500)
  /\ no_call is_dry_run_call t
  /\ no_call is_apply_call t.
Proof.
  intros Hrun Hdec Hid Hstatus.
  apply run_exec_eq in Hrun. unfold applyPkg, apply_reqBody in *.
  destruct (decodeWithEncoding ext r) as [enc [reqBody derr]].
  simpl in Hdec, Hid. subst derr. rewrite Hid in Hrun.
  exec_open Hrun.
  split; [reflexivity |]. split.
  - eexists. split; [reflexivity | apply Hstatus].
  - trace_facts.
Qed.

(** ** The export handler *)

Lemma createPkg_orgOpts_spec (orgIDs : list string) (opts : list CreatePkgSetFn) :
  Forall (id_or_error ext) orgIDs ->
  createPkg_orgOpts ext orgIDs opts = Some (opts ++ omap (org_option ext) orgIDs)%list.
Proof.
  intros Hids. revert opts.
  induction Hids as [| s rest Hs _ IH]; intros opts; simpl.
  - rewrite app_nil_r. reflexivity.
  - unfold org_option, id_or_error in *.
    destruct (IDFromString ext s) as [[orgID |] [e |]]; simpl.
    + apply IH.
    + rewrite IH, <- app_assoc. reflexivity.
    + apply IH.
    + contradiction.
Qed.

Lemma org_option_malformed (orgIDStr : string) (p : option ID) (e : error) :
  IDFromString ext orgIDStr = (p, Some e) -> org_option ext orgIDStr = None.
Proof. intros H. unfold org_option. rewrite H. reflexivity. Qed.

Lemma org_option_well_formed (orgIDStr : string) (orgID : ID) :
  IDFromString ext orgIDStr = (Some orgID, None) ->
  org_option ext orgIDStr = Some (CreateWithAllOrgResources orgID).
Proof. intros H. unfold org_option. rewrite H. reflexivity. Qed.

(** C8: when the decoded body has neither resources nor org ids, the run
    consists of handing an unprocessable-entity error to the error handler
    (and closing the body), so [CreatePkg] is not called; the status is
    422 for every error handler that gives 422 to that error. *)
Theorem createPkg_nothing_requested {W : Type} (h : svc W) (w w' : W) (r : Request)
    (c : completion) (t : trace) reqBody :
  run h (createPkg ext r) w = (c, t, w') ->
  json_Decode_create ext (Body r) = (reqBody, None) ->
  Resources reqBody = [] ->
  OrgIDs reqBody = [] ->
  HTTPErrorStatus ext (Some (InfluxErr EUnprocessableEntity
     "at least 1 resource or 1 org id must be provided" None)) = 422 ->
  t = [EvHandleHTTPError (Context_ r) (Some (InfluxErr EUnprocessableEntity
         "at least 1 resource or 1 org id must be provided" None));
       EvBodyClose]
  /\ response_status ext t = Some 422
  /\ no_call is_create_call t.
Proof.
  intros Hrun Hdec Hres Horg Hstatus.
  apply run_exec_eq in Hrun. unfold createPkg in Hrun.
  rewrite Hdec in Hrun. cbn [not_nil] in Hrun.
  rewrite Hres, Horg in Hrun. cbn [length Nat.eqb andb] in Hrun.
  exec_open Hrun.
  split; [reflexivity |]. split.
  - simpl. rewrite Hstatus. reflexivity.
  - trace_facts.
Qed.

(** C10: when the decoded body has a resource or an org id, the first
    thing the export handler does is to call [CreatePkg], with the option
    for the resources followed by one option for each org id string that
    [IDFromString] accepts, in order; a string it rejects contributes
    nothing and raises no error.  [IDFromString] is taken to give an id
    or an error for each of the strings. *)
Theorem createPkg_skips_malformed_org_ids {W : Type} (h : svc W) (w w' : W) (r : Request)
    (c : completion) (t : trace) reqBody :
  run h (createPkg ext r) w = (c, t, w') ->
  json_Decode_create ext (Body r) = (reqBody, None) ->
  Resources reqBody <> [] \/ OrgIDs reqBody <> [] ->
  Forall (id_or_error ext) (OrgIDs reqBody) ->
  (exists res rest,
     t = EvCreatePkg (Context_ r)
           (CreateWithExistingResources (Resources reqBody)
              :: omap (org_option ext) (OrgIDs reqBody)) res :: rest)
  /\ (forall s p e, IDFromString ext s = (p, Some e) -> org_option ext s = None).
Proof.
  intros Hrun Hdec Hsome Hids.
  split; [| intros s p e; apply org_option_malformed].
  apply run_exec_eq in Hrun. unfold createPkg in Hrun.
  rewrite Hdec in Hrun.
  rewrite (createPkg_orgOpts_spec _ _ Hids) in Hrun.
  assert (Hlen : Nat.eqb (length (Resources reqBody)) 0
                 && Nat.eqb (length (OrgIDs reqBody)) 0 = false).
  { destruct Hsome as [Hne | Hne].
    - destruct (Resources reqBody); [contradiction | reflexivity].
    - destruct (OrgIDs reqBody); [contradiction | apply andb_false_r]. }
  rewrite Hlen in Hrun.
  exec_open Hrun.
  all: trace_facts.
Qed.

(** ** Encoding resolution *)

(** C7: the encoding derived from the request headers is decided by the
    exact value of Content-Type: Jsonnet for "application/x-jsonnet", YAML
    for "text/yml" and "application/x-yaml", and JSON for every other
    value, an absent header included. *)
Theorem pkgEncoding_table (headers : gmap string (list string)) :
  let contentType := Go.Header_Get headers "Content-Type" in
  (pkgEncoding headers = EncodingJsonnet <-> contentType = "application/x-jsonnet")
  /\ (pkgEncoding headers = EncodingYAML <->
        contentType = "text/yml" \/ contentType = "application/x-yaml")
  /\ (pkgEncoding headers = EncodingJSON <->
        contentType <> "application/x-jsonnet" /\ contentType <> "text/yml"
        /\ contentType <> "application/x-yaml")
  /\ (headers !! "Content-Type" = None -> pkgEncoding headers = EncodingJSON).
Proof.
  intros contentType. unfold pkgEncoding. fold contentType.
  assert (Habsent : headers !! "Content-Type" = None -> contentType = "").
  { intros Hnone. unfold contentType, Go.Header_Get. rewrite Hnone. reflexivity. }
  destruct (String.eqb_spec contentType "application/x-jsonnet") as [Hj | Hj];
    [| destruct (String.eqb_spec contentType "text/yml") as [Hy | Hy];
       [| destruct (String.eqb_spec contentType "application/x-yaml") as [Hx | Hx]]];
    simpl.
  all: repeat split; intros; try discriminate; try congruence; auto.
  all: try (intuition congruence).
  all: try (match goal with H : _ !! _ = None |- _ => apply Habsent in H end;
            congruence).
Qed.

Example pkgEncoding_case_sensitive :
  pkgEncoding {[ "Content-Type" := ["Application/X-Yaml"] ]} = EncodingJSON
  /\ pkgEncoding {[ "Content-Type" := ["application/x-yaml"] ]} = EncodingYAML
  /\ pkgEncoding {[ "Content-Type" := ["text/yml"; "application/x-jsonnet"] ]} = EncodingYAML
  /\ pkgEncoding (∅ : gmap string (list string)) = EncodingJSON.
Proof. repeat split; vm_compute; reflexivity. Qed.

Example Ext_json : Go.Ext "https://example.com/pkgs/pkg.json" = ".json".
Proof. reflexivity. Qed.

Example Ext_no_dot_after_slash : Go.Ext "https://example.com/pkg" = "".
Proof. reflexivity. Qed.

Example ToLower_mixed : Go.ToLower "YaML" = "yaml".
Proof. reflexivity. Qed.

Example Encoding_by_content_type :
  PkgRemote_Encoding (mkPkgRemote "https://example.com/pkg" "YAML") = EncodingYAML.
Proof. reflexivity. Qed.

(** When the extension of the URL is none of the recognised ones, the
    content type alone decides the encoding. *)
Lemma PkgRemote_Encoding_unknown_extension (p : PkgRemote) :
  Go.Ext (URL p) <> ".jsonnet" -> Go.Ext (URL p) <> ".json" ->
  Go.Ext (URL p) <> ".yml" -> Go.Ext (URL p) <> ".yaml" ->
  PkgRemote_Encoding p =
    let ct := Go.ToLower (ContentType p) in
    if String.eqb ct "jsonnet" then EncodingJsonnet
    else if String.eqb ct "json" then EncodingJSON
    else if String.eqb ct "yml" || String.eqb ct "yaml" then EncodingYAML
    else EncodingSource.
Proof.
  intros H1 H2 H3 H4. unfold PkgRemote_Encoding.
  apply String.eqb_neq in H1, H2, H3, H4.
  rewrite H1, H2, H3, H4. rewrite !orb_false_r. reflexivity.
Qed.

(** The switch of [Encoding] tests the ".json" extension before the yaml
    content types: a URL with that extension gives JSON for every content
    type other than jsonnet. *)
Lemma PkgRemote_Encoding_json_extension (p : PkgRemote) :
  Go.Ext (URL p) = ".json" ->
  Go.ToLower (ContentType p) <> "jsonnet" ->
  PkgRemote_Encoding p = EncodingJSON.
Proof.
  intros Hext Hct. unfold PkgRemote_Encoding.
  apply String.eqb_neq in Hct. rewrite Hext, Hct. simpl.
  rewrite orb_true_r. reflexivity.
Qed.

(** C1: the remote with content type "yaml" and a URL ending in ".json"
    resolves to JSON, not to YAML: the extension is tested first. *)
Theorem PkgRemote_Encoding_yaml_with_json_url :
  PkgRemote_Encoding (mkPkgRemote "https://example.com/pkg.json" "yaml") = EncodingJSON
  /\ PkgRemote_Encoding (mkPkgRemote "https://example.com/pkg.json" "yaml") <> EncodingYAML.
Proof. split; [reflexivity | discriminate]. Qed.

(** ** Further behaviour of the apply handler *)

(** X1: a request body that fails to decode is answered by handing one
    invalid-request error to the error handler, which names the encoding
    derived from the headers and wraps the decoder's error; nothing is
    parsed, previewed or applied. *)
Theorem applyPkg_decode_error {W : Type} (h : svc W) (w w' : W) (r : Request)
    (c : completion) (t : trace) e :
  run h (applyPkg ext r) w = (c, t, w') ->
  (decodeWithEncoding ext r).2.2 = Some e ->
  t = [EvHandleHTTPError (Context_ r) (Some (InfluxErr EInvalid
         (Sprintf ext "unable to unmarshal %s; Err: %v"
            [ArgString (Encoding_String ext (pkgEncoding (Header r))); ArgError (Some e)])
         (Some e)))]
  /\ c = Done.
Proof.
  intros Hrun Hdec.
  apply run_exec_eq in Hrun.
  pose proof (decodeWithEncoding_encoding r) as Henc.
  unfold applyPkg in Hrun.
  destruct (decodeWithEncoding ext r) as [enc [reqBody derr]].
  simpl in Hdec, Henc. subst derr enc.
  exec_open Hrun. split; reflexivity.
Qed.

(** X2: when the body decodes and the org id is accepted but no authorizer
    is found on the context, the error of [GetAuthorizer] is handed to the
    error handler as it is, and nothing is parsed, previewed or applied. *)
Theorem applyPkg_authorizer_error {W : Type} (h : svc W) (w w' : W) (r : Request)
    (c : completion) (t : trace) auth e :
  run h (applyPkg ext r) w = (c, t, w') ->
  (decodeWithEncoding ext r).2.2 = None ->
  (IDFromString ext (OrgID (apply_reqBody ext r))).2 = None ->
  GetAuthorizer ext (Context_ r) = (auth, Some e) ->
  t = [EvHandleHTTPError (Context_ r) (Some e)] /\ c = Done.
Proof.
  intros Hrun Hdec Hid Hauth.
  apply run_exec_eq in Hrun. unfold applyPkg, apply_reqBody in *.
  destruct (decodeWithEncoding ext r) as [enc [reqBody derr]].
  simpl in Hdec, Hid. subst derr. rewrite Hauth in Hrun.
  destruct (IDFromString ext (OrgID reqBody)) as [p ierr]. simpl in Hid. subst ierr.
  exec_open Hrun. split; reflexivity.
Qed.

(** X3: when [Parse] returns an error, whichever source was read and
    whether or not the error is a parse error, the run ends by handing an
    invalid-request error "failed to parse package from provided URL" that
    wraps it to the error handler; no body is encoded, so its validation
    errors are not reported through the errors field, and neither the dry
    run nor the apply is called. *)
Theorem applyPkg_parse_failure {W : Type} (h : svc W) (w w' : W) (r : Request)
    (c : completion) (t : trace) encoding src pkg e :
  run h (applyPkg ext r) w = (c, t, w') ->
  In (EvParse encoding src (pkg, Some e)) t ->
  t = [EvParse encoding src (pkg, Some e);
       EvHandleHTTPError (Context_ r) (Some (InfluxErr EInvalid
         "failed to parse package from provided URL" (Some e)))]
  /\ c = Done.
Proof.
  intros Hrun Hin.
  apply run_exec_eq in Hrun. unfold applyPkg in Hrun.
  destruct (decodeWithEncoding ext r) as [enc [reqBody derr]].
  exec_open Hrun; pick_event Hin.
  all: try absurd_test.
  all: split; reflexivity.
Qed.

(** X5: the apply capability is only called for a request that does not
    ask for a dry run only, directly after a dry run of the same package
    for the same organization and user that returned no error, and with
    the secrets of the request as its one option. *)
Theorem applyPkg_apply_guarded {W : Type} (h : svc W) (w w' : W) (r : Request)
    (c : completion) (t : trace) ctx orgID userID pkg opts res :
  run h (applyPkg ext r) w = (c, t, w') ->
  In (EvApply ctx orgID userID pkg opts res) t ->
  DryRun (apply_reqBody ext r) = false
  /\ opts = [ApplyWithSecrets (Secrets (apply_reqBody ext r))]
  /\ exists e0 sum diff rest,
       t = e0 :: EvDryRun ctx orgID userID pkg (sum, diff, None)
              :: EvApply ctx orgID userID pkg opts res :: rest.
Proof.
  intros Hrun Hin.
  apply run_exec_eq in Hrun. unfold applyPkg, apply_reqBody in *.
  destruct (decodeWithEncoding ext r) as [enc [reqBody derr]].
  exec_open Hrun; pick_event Hin.
  all: nil_facts; simpl.
  all: split; [assumption | split; [reflexivity |]].
  all: do 4 eexists; reflexivity.
Qed.

(** X6: the dry run is only called after the body decoded and directly
    after a [Parse] without error, on the package [Parse] returned, for
    the organization [IDFromString] reads from the orgID of the body and
    for the user of the authorizer found on the context. *)
Theorem applyPkg_dry_run_arguments {W : Type} (h : svc W) (w w' : W) (r : Request)
    (c : completion) (t : trace) ctx orgID userID pkg res :
  run h (applyPkg ext r) w = (c, t, w') ->
  In (EvDryRun ctx orgID userID pkg res) t ->
  ctx = Context_ r
  /\ (decodeWithEncoding ext r).2.2 = None
  /\ IDFromString ext (OrgID (apply_reqBody ext r)) = (Some orgID, None)
  /\ (exists auth, GetAuthorizer ext (Context_ r) = (Some auth, None)
                   /\ userID = GetUserID ext auth)
  /\ exists encoding src rest,
       t = EvParse encoding src (pkg, None) :: EvDryRun ctx orgID userID pkg res :: rest.
Proof.
  intros Hrun Hin.
  apply run_exec_eq in Hrun. unfold applyPkg, apply_reqBody in *.
  destruct (decodeWithEncoding ext r) as [enc [reqBody derr]].
  exec_open Hrun; pick_event Hin.
  all: nil_facts; simpl.
  all: split; [reflexivity | split; [reflexivity | split; [assumption | split]]].
  all: try (eexists; split; [eassumption | reflexivity]).
  all: do 3 eexists; reflexivity.
Qed.

(** X7: every run of the apply handler that returns writes a status; it
    encodes at most one body, always with the JSON encoder whatever the
    encoding of the request, hands at most one error to the error handler
    and exactly one when no body is encoded; it sets no header, never
    closes the body and never calls [CreatePkg]. *)
Theorem applyPkg_responds_in_json {W : Type} (h : svc W) (w w' : W) (r : Request)
    (c : completion) (t : trace) :
  run h (applyPkg ext r) w = (c, t, w') ->
  c = Done ->
  (exists code, response_status ext t = Some code)
  /\ (length (encoded t) <= 1)%nat
  /\ Forall (fun eb => eb.1 = JSONEnc) (encoded t)
  /\ (length (handled t) <= 1)%nat
  /\ (encoded t = [] -> length (handled t) = 1%nat)
  /\ headers_set t = []
  /\ no_call is_body_close t
  /\ no_call is_create_call t.
Proof.
  intros Hrun Hc.
  apply run_exec_eq in Hrun. unfold applyPkg in Hrun.
  destruct (decodeWithEncoding ext r) as [enc [reqBody derr]].
  exec_open Hrun.
  all: try discriminate Hc.
  all: unfold no_call; cbn [response_status encoded handled headers_set omap length].
  all: repeat match goal with
              | |- _ /\ _ => split
              | |- @ex _ _ => eexists; reflexivity
              | |- Forall _ _ => constructor
              | |- (_ <= _)%nat => simpl; lia
              | |- _ -> _ => intros
              | |- _ => reflexivity
              | |- _ => discriminate
              end.
Qed.

(** X8: [encResp] writes the status before it encodes: the status of
    the response is the given code whether or not the encoder fails, the
    value is handed to the encoder once, and the error handler is called
    exactly when the encoder fails, with an internal error wrapping the
    encoder's error. *)
Theorem encResp_status_kept {W : Type} (h : svc W) (w w' : W) (ctx : Ctx)
    (enc : encoderKind) (code : Z) (res : payload) (u : unit) (t : trace) :
  run h (encResp ext ctx enc code res) w = (u, t, w') ->
  response_status ext t = Some code
  /\ encoded t = [(enc, res)]
  /\ exists err, In (EvEncode enc res err) t
       /\ handled t =
          match err with
          | Some e => [Some (InfluxErr EInternal
                         (Sprintf ext "unable to marshal; Err: %v" [ArgError (Some e)])
                         (Some e))]
          | None => []
          end.
Proof.
  intros Hrun. apply run_exec_eq in Hrun.
  exec_open Hrun; nil_facts.
  all: split; [reflexivity | split; [reflexivity |]].
  all: eexists; split; [right; left; reflexivity | reflexivity].
Qed.

(** ** Further behaviour of the export handler *)

(** X9: when [CreatePkg] returns a package without error, the status is
    200 and the one body encoded is the list of its objects, the empty
    list when [Objects] is nil.  The answer is YAML, announced as
    "application/x-yaml", exactly when the request headers resolve to
    YAML; for every other encoding, Jsonnet included, it is JSON. *)
Theorem createPkg_success {W : Type} (h : svc W) (w w' : W) (r : Request)
    (c : completion) (t : trace) ctx opts pkg :
  run h (createPkg ext r) w = (c, t, w') ->
  In (EvCreatePkg ctx opts (Some pkg, None)) t ->
  response_status ext t = Some 200
  /\ (pkgEncoding (Header r) = EncodingYAML ->
        headers_set t = [("Content-Type", "application/x-yaml")]
        /\ encoded t = [(YAMLEnc, CreateBody (default [] (Pkg_Objects ext pkg)))])
  /\ (pkgEncoding (Header r) <> EncodingYAML ->
        headers_set t = [("Content-Type", "application/json; charset=utf-8")]
        /\ encoded t = [(JSONEnc, CreateBody (default [] (Pkg_Objects ext pkg)))]).
Proof.
  intros Hrun Hin.
  apply run_exec_eq in Hrun. unfold createPkg in Hrun.
  destruct (json_Decode_create ext (Body r)) as [reqBody derr].
  exec_open_deep Hrun; pick_event Hin.
  all: try absurd_test.
  all: split; [reflexivity |].
  all: split; intros Henc; first [ congruence | split; reflexivity ].
Qed.

(** X10: when [CreatePkg] returns an error, the error is logged and
    handed to the error handler as it is, the body is closed, and nothing
    is encoded and no header is set, a returned package notwithstanding. *)
Theorem createPkg_service_error {W : Type} (h : svc W) (w w' : W) (r : Request)
    (c : completion) (t : trace) ctx opts pkg e :
  run h (createPkg ext r) w = (c, t, w') ->
  In (EvCreatePkg ctx opts (pkg, Some e)) t ->
  t = [EvCreatePkg ctx opts (pkg, Some e);
       EvLoggerError "failed to create pkg" (Some e);
       EvHandleHTTPError ctx (Some e);
       EvBodyClose]
  /\ c = Done.
Proof.
  intros Hrun Hin.
  apply run_exec_eq in Hrun. unfold createPkg in Hrun.
  destruct (json_Decode_create ext (Body r)) as [reqBody derr].
  exec_open_deep Hrun; pick_event Hin.
  all: try absurd_test.
  all: split; reflexivity.
Qed.

(** X11: the export handler decodes the body as JSON whatever the request
    headers say.  When that fails, one invalid-request error naming "json"
    is handed to the error handler and the request body is not closed;
    when it succeeds, the body is closed exactly once, as the last thing
    the handler does, on every path. *)
Theorem createPkg_body_close {W : Type} (h : svc W) (w w' : W) (r : Request)
    (c : completion) (t : trace) :
  run h (createPkg ext r) w = (c, t, w') ->
  (forall e, (json_Decode_create ext (Body r)).2 = Some e ->
     t = [EvHandleHTTPError (Context_ r) (Some (InfluxErr EInvalid
            (Sprintf ext "unable to unmarshal %s; Err: %v"
               [ArgString "json"; ArgError (Some e)])
            (Some e)))])
  /\ ((json_Decode_create ext (Body r)).2 = None ->
      last t = Some EvBodyClose /\ count_calls is_body_close t = 1%nat).
Proof.
  intros Hrun.
  apply run_exec_eq in Hrun. unfold createPkg in Hrun.
  destruct (json_Decode_create ext (Body r)) as [reqBody derr]. simpl.
  split.
  - intros e ->. exec_open_deep Hrun. reflexivity.
  - intros ->. exec_open_deep Hrun.
    all: split; reflexivity.
Qed.

(** X12: every run of the export handler that returns writes a status,
    encodes at most one body, hands at most one error to the error handler
    and exactly one when no body is encoded, calls [CreatePkg] at most
    once, and never parses, previews or applies a package. *)
Theorem createPkg_responds_once {W : Type} (h : svc W) (w w' : W) (r : Request)
    (c : completion) (t : trace) :
  run h (createPkg ext r) w = (c, t, w') ->
  c = Done ->
  (exists code, response_status ext t = Some code)
  /\ (length (encoded t) <= 1)%nat
  /\ (length (handled t) <= 1)%nat
  /\ (encoded t = [] -> length (handled t) = 1%nat)
  /\ (count_calls is_create_call t <= 1)%nat
  /\ no_call is_parse_call t
  /\ no_call is_dry_run_call t
  /\ no_call is_apply_call t.
Proof.
  intros Hrun Hc.
  apply run_exec_eq in Hrun. unfold createPkg in Hrun.
  destruct (json_Decode_create ext (Body r)) as [reqBody derr].
  exec_open_deep Hrun.
  all: try discriminate Hc.
  all: unfold no_call, count_calls;
       cbn [response_status encoded handled omap length List.filter
            is_create_call].
  all: repeat match goal with
              | |- _ /\ _ => split
              | |- @ex _ _ => eexists; reflexivity
              | |- Forall _ _ => constructor
              | |- (_ <= _)%nat => simpl; lia
              | |- _ -> _ => intros
              | |- _ => reflexivity
              | |- _ => discriminate
              end.
Qed.

End Properties.

(** * Properties of the users transport *)

Section UserProperties.

Context {UserFields UserUpdate FindOptions OperationLogEntry LogEntryResponse
         Authorizer Ctx : Type}.
Variable ext : @UserHTTP.Externals UserFields UserUpdate FindOptions OperationLogEntry
                 LogEntryResponse Authorizer Ctx.

Local Abbreviation usvc :=
  (@UserHTTP.oracle UserFields UserUpdate FindOptions OperationLogEntry LogEntryResponse Ctx).
Local Abbreviation utrace :=
  (list (@UserHTTP.event UserFields UserUpdate FindOptions OperationLogEntry
           LogEntryResponse Ctx)).
Local Abbreviation uuser := (@UserHTTP.User UserFields).
Local Abbreviation uresp := (@UserHTTP.UserResponse UserFields).
Local Abbreviation route_id r :=
  (UserHTTP.Params_ByName (UserHTTP.ParamsFromContext ext (UserHTTP.Context_ r)) "id").

Lemma user_run_exec {W R : Type} (h : usvc W) (p : UserHTTP.prog R) (w : W) :
  UserHTTP.exec p (UserHTTP.run h p w).1.2 (UserHTTP.run h p w).1.1.
Proof.
  revert w. induction p as [r | o k IH]; intros w; cbn [UserHTTP.run UserHTTP.exec].
  - split; reflexivity.
  - destruct (h o w) as [a w1] eqn:Ha.
    specialize (IH a w1).
    destruct (UserHTTP.run h (k a) w1) as [[r t] w2]. cbn in *.
    exists a, t. split; [reflexivity | exact IH].
Qed.

Lemma user_run_exec_eq {W R : Type} (h : usvc W) (p : UserHTTP.prog R) (w w' : W)
    (r : R) (t : utrace) :
  UserHTTP.run h p w = (r, t, w') -> UserHTTP.exec p t r.
Proof.
  intros Hrun. pose proof (user_run_exec h p w) as Hex.
  rewrite Hrun in Hex. exact Hex.
Qed.

(** ** Passwords *)

(** X15: on PUT of a password with basic auth and a decodable body, an id
    in the route that [IDFromString] rejects makes the handler call the
    error handler twice: [putPassword] hands it an error without code
    saying "invalid user ID provided in route" and returns the error of
    [IDFromString] through its named result, which [handlePutUserPassword]
    hands over again.  The password service is not called. *)
Theorem handlePutUserPassword_invalid_id {W : Type} (h : usvc W) (w w' : W)
    (r : UserHTTP.Request) (c : completion) (t : utrace) user old p e :
  UserHTTP.run h (UserHTTP.handlePutUserPassword ext r) w = (c, t, w') ->
  UserHTTP.BasicAuth r = Some (user, old) ->
  (UserHTTP.json_Decode_password ext (UserHTTP.Body r)).2 = None ->
  UserHTTP.IDFromString ext (route_id r) = (p, Some e) ->
  t = [UserHTTP.EvHandleHTTPError (UserHTTP.Context_ r)
         (Some (UserHTTP.InfluxErr UserHTTP.NoCode "invalid user ID provided in route" "" None));
       UserHTTP.EvHandleHTTPError (UserHTTP.Context_ r) (Some e)]
  /\ c = Done.
Proof.
  intros Hrun Hauth Hdec Hid.
  apply user_run_exec_eq in Hrun.
  unfold UserHTTP.handlePutUserPassword, UserHTTP.putPassword,
    UserHTTP.decodePasswordResetRequest in Hrun.
  rewrite Hauth, Hid in Hrun.
  destruct (UserHTTP.json_Decode_password ext (UserHTTP.Body r)) as [pw derr].
  simpl in Hdec. subst derr.
  user_exec_open Hrun. split; reflexivity.
Qed.

(** X16: on PUT of a password, the password service is only asked to
    compare and set with the id [IDFromString] reads from the route, the
    basic-auth password as the old password and the password of the body
    as the new one; its error is handed to the error handler as it is, and
    without error the handler logs and answers 204. *)
Theorem handlePutUserPassword_arguments {W : Type} (h : usvc W) (w w' : W)
    (r : UserHTTP.Request) (c : completion) (t : utrace) ctx id old new res :
  UserHTTP.run h (UserHTTP.handlePutUserPassword ext r) w = (c, t, w') ->
  In (UserHTTP.EvCompareAndSetPassword ctx id old new res) t ->
  (exists user, UserHTTP.BasicAuth r = Some (user, old))
  /\ UserHTTP.json_Decode_password ext (UserHTTP.Body r) = (new, None)
  /\ UserHTTP.IDFromString ext (route_id r) = (Some id, None)
  /\ t = UserHTTP.EvCompareAndSetPassword ctx id old new res
         :: match res with
            | Some e => [UserHTTP.EvHandleHTTPError ctx (Some e)]
            | None => [UserHTTP.EvLogDebug "User password updated" [];
                       UserHTTP.EvWriteHeader 204]
            end.
Proof.
  intros Hrun Hin.
  apply user_run_exec_eq in Hrun.
  unfold UserHTTP.handlePutUserPassword, UserHTTP.putPassword,
    UserHTTP.decodePasswordResetRequest in Hrun.
  destruct (UserHTTP.BasicAuth r) as [[user old0] |].
  - destruct (UserHTTP.json_Decode_password ext (UserHTTP.Body r)) as [pw [derr |]].
    + user_exec_open Hrun; pick_event Hin.
    + cbn [UserHTTP.not_nil] in Hrun.
      user_exec_open Hrun; pick_event Hin.
      all: user_nil_facts.
      all: split; [eexists; reflexivity | repeat split; assumption || reflexivity].
  - user_exec_open Hrun; pick_event Hin.
Qed.

(** X17: a PUT of a password without basic auth is answered by handing
    the plain error "invalid basic auth" to the error handler, and one with
    basic auth and a body that does not decode by handing it an
    invalid-request error that wraps the decoder's error; in both cases
    once, and without reading the route or calling the password service. *)
Theorem handlePutUserPassword_rejected {W : Type} (h : usvc W) (w w' : W)
    (r : UserHTTP.Request) (c : completion) (t : utrace) :
  UserHTTP.run h (UserHTTP.handlePutUserPassword ext r) w = (c, t, w') ->
  (UserHTTP.BasicAuth r = None ->
     t = [UserHTTP.EvHandleHTTPError (UserHTTP.Context_ r)
            (Some (UserHTTP.Errorf "invalid basic auth"))])
  /\ (forall e, UserHTTP.BasicAuth r <> None ->
        (UserHTTP.json_Decode_password ext (UserHTTP.Body r)).2 = Some e ->
        t = [UserHTTP.EvHandleHTTPError (UserHTTP.Context_ r)
               (Some (UserHTTP.InfluxErr UserHTTP.EInvalid "" "" (Some e)))]).
Proof.
  intros Hrun.
  apply user_run_exec_eq in Hrun.
  unfold UserHTTP.handlePutUserPassword, UserHTTP.putPassword,
    UserHTTP.decodePasswordResetRequest in Hrun.
  split.
  - intros Hauth. rewrite Hauth in Hrun. user_exec_open Hrun. reflexivity.
  - intros e Hauth Hdec.
    destruct (UserHTTP.BasicAuth r) as [[user old] |]; [| contradiction].
    destruct (UserHTTP.json_Decode_password ext (UserHTTP.Body r)) as [pw derr].
    simpl in Hdec. subst derr.
    user_exec_open Hrun. reflexivity.
Qed.

(** X18: on POST of a password the body is decoded before the route is
    read.  A body that does not decode gives one invalid-request error
    wrapping the decoder's error, whatever the id; a decoded body with an
    id that [IDFromString] rejects gives one error without code that says
    "invalid user ID provided in route" and drops the error of
    [IDFromString].  In both cases the password service is not called. *)
Theorem handlePostUserPassword_rejected {W : Type} (h : usvc W) (w w' : W)
    (r : UserHTTP.Request) (c : completion) (t : utrace) :
  UserHTTP.run h (UserHTTP.handlePostUserPassword ext r) w = (c, t, w') ->
  (forall e, (UserHTTP.json_Decode_password ext (UserHTTP.Body r)).2 = Some e ->
     t = [UserHTTP.EvHandleHTTPError (UserHTTP.Context_ r)
            (Some (UserHTTP.InfluxErr UserHTTP.EInvalid "" "" (Some e)))])
  /\ (forall e, (UserHTTP.json_Decode_password ext (UserHTTP.Body r)).2 = None ->
        (UserHTTP.IDFromString ext (route_id r)).2 = Some e ->
        t = [UserHTTP.EvHandleHTTPError (UserHTTP.Context_ r)
               (Some (UserHTTP.InfluxErr UserHTTP.NoCode
                        "invalid user ID provided in route" "" None))]).
Proof.
  intros Hrun.
  apply user_run_exec_eq in Hrun.
  unfold UserHTTP.handlePostUserPassword in Hrun.
  destruct (UserHTTP.json_Decode_password ext (UserHTTP.Body r)) as [pw derr].
  split.
  - intros e Hdec. simpl in Hdec. subst derr.
    user_exec_open Hrun. reflexivity.
  - intros e Hdec Hid. simpl in Hdec. subst derr.
    destruct (UserHTTP.IDFromString ext (route_id r)) as [p ierr].
    simpl in Hid. subst ierr.
    user_exec_open Hrun. reflexivity.
Qed.

(** X19: on POST of a password, the password service is only asked to set
    the password of the body for the id [IDFromString] reads from the
    route; its error is handed to the error handler as it is, and without
    error the only answer is the status 204. *)
Theorem handlePostUserPassword_arguments {W : Type} (h : usvc W) (w w' : W)
    (r : UserHTTP.Request) (c : completion) (t : utrace) ctx id password res :
  UserHTTP.run h (UserHTTP.handlePostUserPassword ext r) w = (c, t, w') ->
  In (UserHTTP.EvSetPassword ctx id password res) t ->
  UserHTTP.json_Decode_password ext (UserHTTP.Body r) = (password, None)
  /\ UserHTTP.IDFromString ext (route_id r) = (Some id, None)
  /\ t = UserHTTP.EvSetPassword ctx id password res
         :: match res with
            | Some e => [UserHTTP.EvHandleHTTPError ctx (Some e)]
            | None => [UserHTTP.EvWriteHeader 204]
            end.
Proof.
  intros Hrun Hin.
  apply user_run_exec_eq in Hrun.
  unfold UserHTTP.handlePostUserPassword in Hrun.
  user_exec_open Hrun; pick_event Hin.
  all: user_nil_facts.
  all: repeat split; try assumption; try reflexivity.
Qed.

(** ** Users *)

(** X20: the user handed to [CreateUser] is the decoded one with an empty
    status replaced by [influxdb.Active] and nothing else changed: a
    status given in the body is kept, and unless [Active] is itself empty
    no user is created with an empty status. *)
Theorem handlePostUser_default_status {W : Type} (h : usvc W) (w w' : W)
    (r : UserHTTP.Request) (c : completion) (t : utrace) ctx u res :
  UserHTTP.run h (UserHTTP.handlePostUser ext r) w = (c, t, w') ->
  In (UserHTTP.EvCreateUser ctx u res) t ->
  exists b, UserHTTP.json_Decode_User ext (UserHTTP.Body r) = (b, None)
    /\ UserHTTP.User_ID u = UserHTTP.User_ID b
    /\ UserHTTP.User_fields u = UserHTTP.User_fields b
    /\ (UserHTTP.User_Status b <> "" -> u = b)
    /\ (UserHTTP.User_Status b = "" -> UserHTTP.User_Status u = UserHTTP.Active ext)
    /\ (UserHTTP.Active ext <> "" -> UserHTTP.User_Status u <> "").
Proof.
  intros Hrun Hin.
  apply user_run_exec_eq in Hrun.
  unfold UserHTTP.handlePostUser, UserHTTP.decodePostUserRequest in Hrun.
  destruct (UserHTTP.json_Decode_User ext (UserHTTP.Body r)) as [b [derr |]];
    cbn [UserHTTP.not_nil] in Hrun.
  - user_exec_open Hrun; pick_event Hin.
  - exists b. split; [reflexivity |].
    assert (Hu : u = UserHTTP.with_default_status ext b).
    { user_exec_open Hrun; pick_event Hin; reflexivity. }
    subst u. clear Hrun Hin. unfold UserHTTP.with_default_status.
    destruct (String.eqb_spec (UserHTTP.User_Status b) "") as [Hs | Hs]; simpl.
    + repeat split; try reflexivity; intros; congruence.
    + repeat split; try reflexivity; intros; congruence.
Qed.

(** X21: when [CreateUser] returns no error, the answer is built from
    the user as the call left it, not as it was decoded: the status is
    201 and the one body is that user with the links to itself and to its
    logs made from its id. *)
Theorem handlePostUser_created {W : Type} (h : usvc W) (w w' : W)
    (r : UserHTTP.Request) (c : completion) (t : utrace) ctx u u' :
  UserHTTP.run h (UserHTTP.handlePostUser ext r) w = (c, t, w') ->
  In (UserHTTP.EvCreateUser ctx u (u', None)) t ->
  UserHTTP.statuses t = [201]
  /\ UserHTTP.encoded t =
     [UserHTTP.UserBody (UserHTTP.mkUserResponse
        {[ "self" := "/api/v2/users/" +:+ UserHTTP.ID_String ext (UserHTTP.User_ID u');
           "logs" := "/api/v2/users/" +:+ UserHTTP.ID_String ext (UserHTTP.User_ID u')
                       +:+ "/logs" ]}
        u')]
  /\ UserHTTP.service_calls t = [UserHTTP.EvCreateUser ctx u (u', None)].
Proof.
  intros Hrun Hin.
  apply user_run_exec_eq in Hrun.
  unfold UserHTTP.handlePostUser, UserHTTP.newUserResponse in Hrun.
  destruct (UserHTTP.decodePostUserRequest ext r) as [req derr].
  user_exec_open Hrun; pick_event Hin.
  all: try discriminate.
  all: repeat match goal with
              | H : Some _ = Some _ |- _ => injection H as ?; subst
              end.
  all: repeat split; reflexivity.
Qed.

(** X22: a request on one user whose route has no id is answered, by each
    of the four handlers that read one, by handing the invalid-request
    error "url missing id" to the error handler; the id is not decoded
    and no service is called. *)
Theorem missing_id_rejected {W : Type} (h : usvc W) (w : W) (r : UserHTTP.Request) :
  route_id r = "" ->
  let rejected : utrace :=
    [UserHTTP.EvHandleHTTPError (UserHTTP.Context_ r)
       (Some (UserHTTP.InfluxErr UserHTTP.EInvalid "url missing id" "" None))] in
  (UserHTTP.run h (UserHTTP.handleGetUser ext r) w).1 = (Done, rejected)
  /\ (UserHTTP.run h (UserHTTP.handleDeleteUser ext r) w).1 = (Done, rejected)
  /\ (UserHTTP.run h (UserHTTP.handlePatchUser ext r) w).1 = (Done, rejected)
  /\ (UserHTTP.run h (UserHTTP.handleGetUserLog ext r) w).1 = (Done, rejected).
Proof.
  intros Hid rejected.
  assert (Hdec : UserHTTP.decodeUserID ext (UserHTTP.Context_ r)
                 = (None, Some (UserHTTP.InfluxErr UserHTTP.EInvalid "url missing id" "" None))).
  { unfold UserHTTP.decodeUserID. rewrite Hid. reflexivity. }
  unfold UserHTTP.handleGetUser, UserHTTP.handleDeleteUser, UserHTTP.handlePatchUser,
    UserHTTP.handleGetUserLog, UserHTTP.decodeGetUserRequest, UserHTTP.decodeDeleteUserRequest,
    UserHTTP.decodePatchUserRequest, UserHTTP.decodeGetUserLogRequest.
  rewrite Hdec.
  cbn [UserHTTP.not_nil mbind mret UserHTTP.prog_bind UserHTTP.prog_ret UserHTTP.bind
       UserHTTP.call UserHTTP.run].
  destruct (h (UserHTTP.HandleHTTPError (UserHTTP.Context_ r)
                 (Some (UserHTTP.InfluxErr UserHTTP.EInvalid "url missing id" "" None))) w)
    as [a w1].
  repeat split.
Qed.

(** X23: the user service is only asked to delete the id that
    [DecodeFromString] reads from the route; its error is handed to the
    error handler as it is, and without error the handler logs the id and
    answers 204 without a body. *)
Theorem handleDeleteUser_outcomes {W : Type} (h : usvc W) (w w' : W)
    (r : UserHTTP.Request) (c : completion) (t : utrace) ctx id res :
  UserHTTP.run h (UserHTTP.handleDeleteUser ext r) w = (c, t, w') ->
  In (UserHTTP.EvDeleteUser ctx id res) t ->
  route_id r <> ""
  /\ UserHTTP.ID_DecodeFromString ext (route_id r) = (id, None)
  /\ t = UserHTTP.EvDeleteUser ctx id res
         :: match res with
            | Some e => [UserHTTP.EvHandleHTTPError ctx (Some e)]
            | None => [UserHTTP.EvLogDebug "User deleted" [("userID", UserHTTP.LoggedID id)];
                       UserHTTP.EvWriteHeader 204]
            end
  /\ UserHTTP.encoded t = [].
Proof.
  intros Hrun Hin.
  apply user_run_exec_eq in Hrun.
  unfold UserHTTP.handleDeleteUser, UserHTTP.decodeDeleteUserRequest,
    UserHTTP.decodeUserID in Hrun.
  destruct (String.eqb_spec (route_id r) "") as [Hid | Hid].
  - user_exec_open Hrun; pick_event Hin.
  - destruct (UserHTTP.ID_DecodeFromString ext (route_id r)) as [i [derr |]];
      cbn [UserHTTP.not_nil] in Hrun.
    + user_exec_open Hrun; pick_event Hin.
    + user_exec_open Hrun; pick_event Hin.
      all: user_nil_facts.
      all: repeat split; assumption || reflexivity.
Qed.

(** X24: GET /api/v2/me looks up the user of the authorizer found on the
    context and no other; when that user is found, the status is 200 and
    the one body is the user with its links. *)
Theorem handleGetMe_uses_authorizer {W : Type} (h : usvc W) (w w' : W)
    (r : UserHTTP.Request) (c : completion) (t : utrace) ctx id res :
  UserHTTP.run h (UserHTTP.handleGetMe ext r) w = (c, t, w') ->
  In (UserHTTP.EvFindUserByID ctx id res) t ->
  (exists a, UserHTTP.GetAuthorizer ext (UserHTTP.Context_ r) = (Some a, None)
             /\ id = UserHTTP.GetUserID ext a)
  /\ UserHTTP.service_calls t = [UserHTTP.EvFindUserByID ctx id res]
  /\ (forall u, res = (Some u, None) ->
        UserHTTP.statuses t = [200]
        /\ UserHTTP.encoded t =
           [UserHTTP.UserBody (UserHTTP.mkUserResponse
              {[ "self" := "/api/v2/users/" +:+ UserHTTP.ID_String ext (UserHTTP.User_ID u);
                 "logs" := "/api/v2/users/" +:+ UserHTTP.ID_String ext (UserHTTP.User_ID u)
                             +:+ "/logs" ]}
              u)]).
Proof.
  intros Hrun Hin.
  apply user_run_exec_eq in Hrun.
  unfold UserHTTP.handleGetMe, UserHTTP.newUserResponse in Hrun.
  destruct (UserHTTP.GetAuthorizer ext (UserHTTP.Context_ r)) as [a aerr].
  user_exec_open Hrun; pick_event Hin.
  all: user_nil_facts.
  all: split; [eexists; split; reflexivity | split; [reflexivity |]].
  all: intros found Hres; try discriminate Hres.
  all: injection Hres as ->.
  all: try match goal with
           | H : Some _ = None |- _ => discriminate H
           end.
  all: repeat match goal with
              | H : Some _ = Some _ |- _ => injection H as ?; subst
              end.
  all: split; reflexivity.
Qed.

(** ** Lists of users *)

Lemma newUsersResponse_loop_some (users : list uuser)
    (acc : list (option uresp)) :
  UserHTTP.newUsersResponse_loop ext (map Some users) acc
  = Some (acc ++ map (fun u => UserHTTP.newUserResponse ext (Some u)) users)%list.
Proof.
  revert acc. induction users as [| u users IH]; intros acc; simpl.
  - rewrite app_nil_r. reflexivity.
  - rewrite IH, <- app_assoc. reflexivity.
Qed.

Lemma newUsersResponse_loop_none (users : list (option uuser))
    (acc : list (option uresp)) :
  UserHTTP.newUsersResponse_loop ext users acc = None <-> In None users.
Proof.
  revert acc. induction users as [| [u |] users IH]; intros acc; simpl.
  - split; [discriminate | contradiction].
  - rewrite IH. split; [auto | intros [H | H]; [discriminate H | exact H]].
  - split; auto.
Qed.

Lemma ToInfluxdb_loop_responses (users : list uuser) :
  UserHTTP.ToInfluxdb_loop (map (fun u => UserHTTP.newUserResponse ext (Some u)) users)
  = Some (map Some users).
Proof.
  induction users as [| u users IH]; [reflexivity |].
  cbn [map]. unfold UserHTTP.newUserResponse at 1.
  cbn [UserHTTP.ToInfluxdb_loop]. rewrite IH. reflexivity.
Qed.

Lemma ToInfluxdb_loop_some (rs : list (option uresp))
    (users : list (option uuser)) :
  UserHTTP.ToInfluxdb_loop rs = Some users ->
  length users = length rs
  /\ Forall2 (fun res u => exists x, res = Some x /\ u = Some (UserHTTP.UserResponse_User x))
       rs users.
Proof.
  revert users. induction rs as [| [res |] rs IH]; intros users H; simpl in H.
  - injection H as <-. split; [reflexivity | constructor].
  - destruct (UserHTTP.ToInfluxdb_loop rs) as [us |]; [| discriminate H].
    injection H as <-. destruct (IH us eq_refl) as [Hlen Hall].
    split; [simpl; congruence |]. constructor; [eauto | exact Hall].
  - discriminate H.
Qed.

(** X25: [newUsersResponse] followed by [ToInfluxdb] gives back the users
    it was built from, in order: the response has one entry per user, each
    made by [newUserResponse], under the link "self" to "/api/v2/users".
    It dereferences a nil pointer exactly when one of the users is nil. *)
Theorem newUsersResponse_round_trip (users : list uuser) :
  (exists res,
     UserHTTP.newUsersResponse ext (map Some users) = Some res
     /\ UserHTTP.ToInfluxdb res = Some (map Some users)
     /\ UserHTTP.usersResponse_Links res = {[ "self" := "/api/v2/users" ]}
     /\ UserHTTP.usersResponse_Users res
        = map (fun u => UserHTTP.newUserResponse ext (Some u)) users)
  /\ (forall pointers : list (option uuser),
        UserHTTP.newUsersResponse ext pointers = None <-> In None pointers).
Proof.
  split.
  - unfold UserHTTP.newUsersResponse, UserHTTP.ToInfluxdb.
    rewrite newUsersResponse_loop_some. simpl.
    eexists. split; [reflexivity |]. simpl.
    split; [apply ToInfluxdb_loop_responses | split; reflexivity].
  - intros pointers. unfold UserHTTP.newUsersResponse.
    rewrite <- (newUsersResponse_loop_none pointers []).
    destruct (UserHTTP.newUsersResponse_loop ext pointers []);
      split; intros H; (discriminate H || reflexivity).
Qed.

(** X26: GET /api/v2/users filters by the first "name" of the query unless
    it is empty, and by the id [IDFromString] reads from the first "id"
    unless that is empty; when the user service returns users without
    error, the status is 200 and the one body is the response built from
    exactly those users, whatever count the service returned. *)
Theorem handleGetUsers_lists {W : Type} (h : usvc W) (w w' : W)
    (r : UserHTTP.Request) (c : completion) (t : utrace) ctx filter res :
  UserHTTP.run h (UserHTTP.handleGetUsers ext r) w = (c, t, w') ->
  In (UserHTTP.EvSvcFindUsers ctx filter res) t ->
  let id := UserHTTP.Values_Get (UserHTTP.Query r) "id" in
  let name := UserHTTP.Values_Get (UserHTTP.Query r) "name" in
  UserHTTP.filter_Name filter = (if String.eqb name "" then None else Some name)
  /\ (id = "" -> UserHTTP.filter_ID filter = None)
  /\ (id <> "" -> UserHTTP.IDFromString ext id = (UserHTTP.filter_ID filter, None))
  /\ (forall users n body,
        res = (users, n, None) ->
        UserHTTP.newUsersResponse ext users = Some body ->
        UserHTTP.statuses t = [200] /\ UserHTTP.encoded t = [UserHTTP.UsersBody body]).
Proof.
  intros Hrun Hin id name.
  apply user_run_exec_eq in Hrun.
  unfold UserHTTP.handleGetUsers, UserHTTP.decodeGetUsersRequest in Hrun.
  fold id name in Hrun.
  destruct (String.eqb_spec id "") as [Hid | Hid]; cbn [negb] in Hrun.
  - cbn [UserHTTP.not_nil] in Hrun.
    user_exec_open Hrun; pick_event Hin.
    all: user_nil_facts.
    all: cbn [UserHTTP.filter_Name UserHTTP.filter_ID].
    all: split; [destruct (String.eqb name ""); reflexivity |].
    all: split; [reflexivity | split; [contradiction |]].
    all: intros listed counted body Hres Hbody; try discriminate Hres.
    all: injection Hres as -> ->; try congruence.
    all: match goal with
         | H1 : UserHTTP.newUsersResponse _ _ = Some _,
           H2 : UserHTTP.newUsersResponse _ _ = Some _ |- _ =>
             rewrite H1 in H2; injection H2 as ->
         end.
    all: split; reflexivity.
  - destruct (UserHTTP.IDFromString ext id) as [p [ierr |]]; cbn [UserHTTP.not_nil] in Hrun.
    + user_exec_open Hrun; pick_event Hin.
    + user_exec_open Hrun; pick_event Hin.
      all: user_nil_facts.
      all: cbn [UserHTTP.filter_Name UserHTTP.filter_ID].
      all: split; [destruct (String.eqb name ""); reflexivity |].
      all: split; [contradiction | split; [reflexivity |]].
      all: intros listed counted body Hres Hbody; try discriminate Hres.
      all: injection Hres as -> ->; try congruence.
      all: match goal with
           | H1 : UserHTTP.newUsersResponse _ _ = Some _,
             H2 : UserHTTP.newUsersResponse _ _ = Some _ |- _ =>
               rewrite H1 in H2; injection H2 as ->
           end.
      all: split; reflexivity.
Qed.

(** ** The client *)

(** X27: [FindUsers] makes one GET of "/api/v2/users" whose query is the
    option parameters followed by the id and then the name of the filter,
    where set.  The count it returns is the length of the list it returns;
    no user of the list is nil, and with an error the list is empty. *)
Theorem FindUsers_result {W : Type} (h : usvc W) (w w' : W) (ctx : Ctx)
    (filter : UserHTTP.UserFilter) (opt : list FindOptions) (t : utrace) users n err :
  UserHTTP.run h (UserHTTP.FindUsers ext ctx filter opt) w
    = (UserHTTP.Returns (users, n, err), t, w') ->
  n = length users
  /\ Forall (fun u => u <> None) users
  /\ (err <> None -> users = [])
  /\ exists answer,
       t = [UserHTTP.EvClientGetUsers ctx "/api/v2/users"
              (UserHTTP.findOptionParams ext opt
                 ++ match UserHTTP.filter_ID filter with
                    | Some id => [("id", UserHTTP.ID_String ext id)]
                    | None => []
                    end
                 ++ match UserHTTP.filter_Name filter with
                    | Some name => [("name", name)]
                    | None => []
                    end)%list
              answer].
Proof.
  intros Hrun.
  apply user_run_exec_eq in Hrun.
  assert (Hparams :
    UserHTTP.filter_params ext filter (UserHTTP.findOptionParams ext opt)
    = (UserHTTP.findOptionParams ext opt
         ++ match UserHTTP.filter_ID filter with
            | Some id => [("id", UserHTTP.ID_String ext id)]
            | None => []
            end
         ++ match UserHTTP.filter_Name filter with
            | Some name => [("name", name)]
            | None => []
            end)%list).
  { unfold UserHTTP.filter_params.
    destruct (UserHTTP.filter_ID filter), (UserHTTP.filter_Name filter);
      rewrite ?app_nil_r, <- ?app_assoc; reflexivity. }
  unfold UserHTTP.FindUsers in Hrun. rewrite Hparams in Hrun.
  unfold UserHTTP.ToInfluxdb in Hrun.
  user_exec_open Hrun.
  all: cbn [UserHTTP.exec] in Hrun; destruct Hrun as [-> Hres]; try discriminate Hres.
  all: injection Hres as -> -> ->.
  - repeat split; [constructor | eexists; reflexivity].
  - match goal with
    | H : UserHTTP.ToInfluxdb_loop _ = Some _ |- _ =>
        apply ToInfluxdb_loop_some in H as [Hlen Hall]
    end.
    split; [reflexivity |]. split.
    + clear -Hall. induction Hall as [| res usr rs us (x & _ & ->) _ IH];
        constructor; [discriminate | exact IH].
    + split; [| eexists; reflexivity].
      intros Hne. contradiction.
Qed.

(** X28: [FindUser] makes no request for a filter with neither id nor
    name and reports "user not found"; otherwise it makes the one request
    of [FindUsers] without options.  It returns a user or an error, never
    both and never neither: the first entry of the list the server sent,
    a not-found error when the list is empty, or the error of the request
    wrapped under the operation name. *)
Theorem FindUser_result {W : Type} (h : usvc W) (w w' : W) (OpPrefix : string) (ctx : Ctx)
    (filter : UserHTTP.UserFilter) (t : utrace) u err :
  UserHTTP.run h (UserHTTP.FindUser ext OpPrefix ctx filter) w
    = (UserHTTP.Returns (u, err), t, w') ->
  (u = None <-> err <> None)
  /\ (UserHTTP.filter_ID filter = None -> UserHTTP.filter_Name filter = None ->
        t = []
        /\ err = Some (UserHTTP.InfluxErr UserHTTP.ENotFound "user not found" "" None))
  /\ (forall sent e, In (UserHTTP.EvClientGetUsers ctx "/api/v2/users"
                           (UserHTTP.filter_params ext filter (UserHTTP.findOptionParams ext []))
                           (sent, Some e)) t ->
        err = Some (UserHTTP.InfluxErr UserHTTP.NoCode ""
                      (OpPrefix +:+ UserHTTP.OpFindUser ext) (Some e)))
  /\ (forall path params sent, In (UserHTTP.EvClientGetUsers ctx path params (sent, None)) t ->
        match UserHTTP.usersResponse_Users sent with
        | [] => err = Some (UserHTTP.InfluxErr UserHTTP.ENotFound "no results found"
                              (OpPrefix +:+ UserHTTP.OpFindUser ext) None)
        | first :: _ => exists x, first = Some x /\ u = Some (UserHTTP.UserResponse_User x)
        end)
  /\ (length t <= 1)%nat.
Proof.
  intros Hrun.
  apply user_run_exec_eq in Hrun.
  unfold UserHTTP.FindUser, UserHTTP.FindUsers, UserHTTP.ToInfluxdb in Hrun.
  destruct (UserHTTP.filter_ID filter) as [id |] eqn:Hfid;
    destruct (UserHTTP.filter_Name filter) as [name |] eqn:Hfname.
  4: { cbn in Hrun. destruct Hrun as [-> Hres]. injection Hres as -> ->.
       split; [split; [discriminate | reflexivity] |].
       split; [intros _ _; split; reflexivity |].
       split; [intros sent e [] |]. split; [intros path params sent [] | simpl; lia]. }
  all: user_exec_open Hrun.
  all: cbn [UserHTTP.exec] in Hrun; destruct Hrun as [-> Hres]; try discriminate Hres.
  all: injection Hres as -> ->.
  all: user_nil_facts.
  all: try match goal with
           | H : UserHTTP.ToInfluxdb_loop _ = Some _ |- _ =>
               apply ToInfluxdb_loop_some in H as [Hlen Hall]
           end.
  all: split;
    [first [ split; [intros _; discriminate | reflexivity]
           | split; [intros H; exfalso | intros H; contradiction] ] |].
  all: try (match goal with |- False => idtac end; subst;
            first [ discriminate
                  | match goal with
                    | Hall : Forall2 _ _ (_ :: _) |- _ =>
                        inversion Hall as [| ? ? ? ? (x & _ & Hx) ?]; discriminate Hx
                    end ]).
  all: split; [intros H1 H2; discriminate |].
  all: split; [intros sent e0 Hin; pick_event Hin; reflexivity |].
  all: split; [| simpl; lia].
  all: intros path params sent Hin; pick_event Hin.
  all: try congruence.
  all: destruct (UserHTTP.usersResponse_Users sent) as [| first rest];
       inversion Hall as [| ? ? ? ? (x & Hr & Hu) ?]; subst; simpl in *;
       try discriminate.
  all: first [ reflexivity | exists x; split; reflexivity ].
Qed.

End UserProperties.

(** ** Extensions of remote URLs *)

Lemma string_length_app (s1 s2 : string) :
  String.length (s1 ++ s2) = (String.length s1 + String.length s2)%nat.
Proof. induction s1 as [| c s1 IH]; [reflexivity | exact (f_equal S IH)]. Qed.

Lemma string_app_assoc (s1 s2 s3 : string) : (s1 ++ s2) ++ s3 = s1 ++ (s2 ++ s3).
Proof. induction s1 as [| c s1 IH]; [reflexivity | exact (f_equal (String c) IH)]. Qed.

Lemma string_get_app_r (s1 s2 : string) (n : nat) :
  String.get (String.length s1 + n) (s1 ++ s2) = String.get n s2.
Proof. induction s1 as [| c s1 IH]; [reflexivity | exact IH]. Qed.

Lemma string_substring_full (s : string) : String.substring 0 (String.length s) s = s.
Proof. induction s as [| c s IH]; simpl; congruence. Qed.

Lemma string_substring_app_r (s1 s2 : string) :
  String.substring (String.length s1) (String.length s2) (s1 ++ s2) = s2.
Proof.
  induction s1 as [| c s1 IH]; [apply string_substring_full | exact IH].
Qed.

Lemma no_dot_or_slash_get (s : string) (i : nat) :
  no_dot_or_slash s = true ->
  (i < String.length s)%nat ->
  exists c, String.get i s = Some c /\ Ascii.eqb c "/" = false /\ Ascii.eqb c "." = false.
Proof.
  revert i. induction s as [| c s IH]; intros i Hs Hi; simpl in *; [lia |].
  apply andb_prop in Hs as [Hc Hs]. apply andb_prop in Hc as [Hdot Hslash].
  apply negb_true_iff in Hdot, Hslash.
  destruct i as [| i].
  - exists c. auto.
  - apply IH; [assumption | lia].
Qed.

(** The loop of [path.Ext] walks over a text without dot or slash. *)
Lemma Ext_loop_skips (front back : string) (k : nat) :
  no_dot_or_slash back = true ->
  (k <= String.length back)%nat ->
  Go.Ext_loop (front ++ back) (String.length front + k)
  = Go.Ext_loop (front ++ back) (String.length front).
Proof.
  intros Hback. induction k as [| k IH]; intros Hk.
  - rewrite Nat.add_0_r. reflexivity.
  - rewrite Nat.add_succ_r. simpl. rewrite string_get_app_r.
    destruct (no_dot_or_slash_get back k Hback) as (c & -> & -> & ->); [lia |].
    apply IH. lia.
Qed.

Lemma Ext_of_extension (front ext : string) :
  no_dot_or_slash ext = true ->
  Go.Ext (front ++ "." ++ ext) = "." ++ ext.
Proof.
  intros Hext. unfold Go.Ext.
  change (front ++ "." ++ ext) with (front ++ ("." ++ ext)).
  rewrite <- (string_app_assoc front "." ext).
  rewrite (string_length_app (front ++ ".") ext).
  rewrite Ext_loop_skips by (assumption || lia).
  rewrite string_length_app. simpl String.length. rewrite Nat.add_1_r.
  cbn [Go.Ext_loop].
  rewrite string_app_assoc.
  pose proof (string_get_app_r front ("." ++ ext) 0) as Hget.
  rewrite Nat.add_0_r in Hget. rewrite Hget. simpl String.get.
  cbn [Ascii.eqb Bool.eqb andb].
  rewrite string_length_app.
  replace (String.length front + String.length ("." ++ ext) - String.length front)%nat
    with (String.length ("." ++ ext)) by lia.
  apply string_substring_app_r.
Qed.

Lemma Ext_without_extension (front last : string) :
  no_dot_or_slash last = true ->
  Go.Ext (front ++ "/" ++ last) = "" /\ Go.Ext last = "".
Proof.
  intros Hlast. unfold Go.Ext. split.
  - change (front ++ "/" ++ last) with (front ++ ("/" ++ last)).
    rewrite <- (string_app_assoc front "/" last).
    rewrite (string_length_app (front ++ "/") last).
    rewrite Ext_loop_skips by (assumption || lia).
    rewrite string_length_app. simpl String.length. rewrite Nat.add_1_r.
    cbn [Go.Ext_loop].
    rewrite string_app_assoc.
    pose proof (string_get_app_r front ("/" ++ last) 0) as Hget.
    rewrite Nat.add_0_r in Hget. rewrite Hget. reflexivity.
  - pose proof (Ext_loop_skips "" last (String.length last) Hlast (le_n _)) as Hskip.
    simpl in Hskip. exact Hskip.
Qed.

(** X13: a URL that ends in a recognised extension decides the encoding
    against the content type wherever the switch tests the extension
    first: ".jsonnet" gives Jsonnet for every content type, ".json" gives
    JSON for every content type but jsonnet (yaml and yml included), and
    ".yml" and ".yaml" give YAML for every content type but jsonnet and
    json. *)
Theorem PkgRemote_Encoding_extension (front ct : string) :
  PkgRemote_Encoding (mkPkgRemote (front ++ ".jsonnet") ct) = EncodingJsonnet
  /\ (Go.ToLower ct <> "jsonnet" ->
        PkgRemote_Encoding (mkPkgRemote (front ++ ".json") ct) = EncodingJSON)
  /\ (Go.ToLower ct <> "jsonnet" -> Go.ToLower ct <> "json" ->
        PkgRemote_Encoding (mkPkgRemote (front ++ ".yml") ct) = EncodingYAML
        /\ PkgRemote_Encoding (mkPkgRemote (front ++ ".yaml") ct) = EncodingYAML).
Proof.
  pose proof (Ext_of_extension front "jsonnet" eq_refl
              : Go.Ext (front ++ ".jsonnet") = ".jsonnet") as Hjsonnet.
  pose proof (Ext_of_extension front "json" eq_refl
              : Go.Ext (front ++ ".json") = ".json") as Hjson.
  pose proof (Ext_of_extension front "yml" eq_refl
              : Go.Ext (front ++ ".yml") = ".yml") as Hyml.
  pose proof (Ext_of_extension front "yaml" eq_refl
              : Go.Ext (front ++ ".yaml") = ".yaml") as Hyaml.
  unfold PkgRemote_Encoding. simpl URL. simpl ContentType.
  rewrite Hjsonnet, Hjson, Hyml, Hyaml.
  split; [| split].
  - rewrite String.eqb_refl, orb_true_r. reflexivity.
  - intros Hct. apply String.eqb_neq in Hct. rewrite Hct.
    simpl. rewrite orb_true_r. reflexivity.
  - intros Hct1 Hct2. apply String.eqb_neq in Hct1, Hct2. rewrite Hct1, Hct2.
    simpl. rewrite !orb_true_r. split; reflexivity.
Qed.

(** X14: when the last element of the URL has no dot, the content type
    alone decides, compared in lower case: jsonnet, json, yml or yaml give
    their encodings and every other content type, the empty one included,
    gives the source encoding. *)
Theorem PkgRemote_Encoding_no_extension (front last ct : string) :
  no_dot_or_slash last = true ->
  PkgRemote_Encoding (mkPkgRemote (front ++ "/" ++ last) ct) =
    (if String.eqb (Go.ToLower ct) "jsonnet" then EncodingJsonnet
     else if String.eqb (Go.ToLower ct) "json" then EncodingJSON
     else if String.eqb (Go.ToLower ct) "yml" || String.eqb (Go.ToLower ct) "yaml"
          then EncodingYAML
     else EncodingSource).
Proof.
  intros Hlast.
  destruct (Ext_without_extension front last Hlast) as [Hext _].
  rewrite PkgRemote_Encoding_unknown_extension; simpl URL; rewrite ?Hext;
    [reflexivity | discriminate ..].
Qed.

(** ** The theorems at concrete requests *)

Lemma applyPkg_package_source_witness :
  (EncodingYAML
   = PkgRemote_Encoding (Remote (apply_reqBody demo_ext (demo_request "application/json" "remote")))
   /\ FromHTTPRequest "https://example.com/pkg.yml"
      = FromHTTPRequest
          (URL (Remote (apply_reqBody demo_ext (demo_request "application/json" "remote")))))
  /\ (EncodingYAML = pkgEncoding (Header (demo_request "application/x-yaml" "apply"))
      /\ FromReader "{}"
         = FromReader (RawPkg (apply_reqBody demo_ext (demo_request "application/x-yaml" "apply"))))
  /\ (exists encoding src res rest,
        demo_trace ("sum", "diff", None) ("sum2", None) "application/json" "remote"
        = EvParse encoding src res :: rest).
Proof.
  split; [| split].
  - apply (proj1 (applyPkg_package_source demo_ext
                    (demo_svc ("sum", "diff", None) ("sum2", None)) tt tt
                    (demo_request "application/json" "remote") Done _ eq_refl)
             EncodingYAML (FromHTTPRequest "https://example.com/pkg.yml") (Some "pkg", None)).
    + left. reflexivity.
    + discriminate.
  - apply (proj1 (applyPkg_package_source demo_ext
                    (demo_svc ("sum", "diff", None) ("sum2", None)) tt tt
                    (demo_request "application/x-yaml" "apply") Done _ eq_refl)
             EncodingYAML (FromReader "{}") (Some "pkg", None)).
    + left. reflexivity.
    + reflexivity.
  - apply (proj2 (applyPkg_package_source demo_ext
                    (demo_svc ("sum", "diff", None) ("sum2", None)) tt tt
                    (demo_request "application/json" "remote") Done _ eq_refl) 7%N).
    + reflexivity.
    + reflexivity.
    + reflexivity.
Defined.

Lemma applyPkg_dry_run_only_witness :
  response_status demo_ext
    (demo_trace ("sum", "diff", None) ("sum2", None) "application/json" "dry-run") = Some 200
  /\ encoded (demo_trace ("sum", "diff", None) ("sum2", None) "application/json" "dry-run")
     = [(JSONEnc, ApplyBody (mkRespApplyPkg "diff" "sum" []))]
  /\ has_errors_field (mkRespApplyPkg "diff" "sum" ([] : list string)) = false
  /\ no_call is_apply_call
       (demo_trace ("sum", "diff", None) ("sum2", None) "application/json" "dry-run").
Proof.
  apply (applyPkg_dry_run_only demo_ext (demo_svc ("sum", "diff", None) ("sum2", None)) tt tt
           (demo_request "application/json" "dry-run") Done _
           (Some 7%N) 1%N 7%N (Some "pkg") "sum" "diff").
  - reflexivity.
  - reflexivity.
  - reflexivity.
  - right. left. reflexivity.
Defined.

Lemma applyPkg_dry_run_parse_error_witness :
  response_status demo_ext
    (demo_trace ("sum", "diff", demo_parse_err) ("sum2", None) "application/json" "apply")
  = Some 422
  /\ encoded (demo_trace ("sum", "diff", demo_parse_err) ("sum2", None)
                "application/json" "apply")
     = [(JSONEnc, ApplyBody (mkRespApplyPkg "diff" "sum"
                    ["bucket name is required"; "label color is invalid"]))]
  /\ no_call is_apply_call
       (demo_trace ("sum", "diff", demo_parse_err) ("sum2", None) "application/json" "apply").
Proof.
  apply (applyPkg_dry_run_parse_error demo_ext
           (demo_svc ("sum", "diff", demo_parse_err) ("sum2", None)) tt tt
           (demo_request "application/json" "apply") Done _
           (Some 7%N) 1%N 7%N (Some "pkg") "sum" "diff" demo_parse_err).
  - reflexivity.
  - right. left. reflexivity.
  - reflexivity.
Defined.

Lemma applyPkg_apply_parse_error_witness :
  response_status demo_ext
    (demo_trace ("sum", "diff", None) ("sum2", demo_parse_err) "application/json" "apply")
  = Some 201
  /\ encoded (demo_trace ("sum", "diff", None) ("sum2", demo_parse_err)
                "application/json" "apply")
     = [(JSONEnc, ApplyBody (mkRespApplyPkg "diff" "sum2"
                    ["bucket name is required"; "label color is invalid"]))]
  /\ DryRun (apply_reqBody demo_ext (demo_request "application/json" "apply")) = false.
Proof.
  apply (applyPkg_apply_parse_error demo_ext
           (demo_svc ("sum", "diff", None) ("sum2", demo_parse_err)) tt tt
           (demo_request "application/json" "apply") Done _
           (Some 7%N) 1%N 7%N (Some "pkg") "sum" "diff" None
           (Some 7%N) 1%N 7%N (Some "pkg") [ApplyWithSecrets {[ "token" := "s3cret" ]}]
           "sum2" demo_parse_err).
  - reflexivity.
  - right. left. reflexivity.
  - right. right. left. reflexivity.
  - reflexivity.
Defined.

Lemma applyPkg_hard_failure_witness :
  (response_status demo_ext
     (demo_trace ("sum", "diff", demo_hard_err) ("sum2", None) "application/json" "apply")
   = Some 500
   /\ encoded (demo_trace ("sum", "diff", demo_hard_err) ("sum2", None)
                 "application/json" "apply") = []
   /\ no_call is_apply_call
        (demo_trace ("sum", "diff", demo_hard_err) ("sum2", None) "application/json" "apply"))
  /\ (response_status demo_ext
        (demo_trace ("sum", "diff", None) ("sum2", demo_hard_err) "application/json" "apply")
      = Some 500
      /\ encoded (demo_trace ("sum", "diff", None) ("sum2", demo_hard_err)
                    "application/json" "apply") = []).
Proof.
  split.
  - destruct (applyPkg_hard_failure demo_ext
                (demo_svc ("sum", "diff", demo_hard_err) ("sum2", None)) tt tt
                (demo_request "application/json" "apply") Done _ eq_refl) as [Hdry _].
    destruct (Hdry (Some 7%N) 1%N 7%N (Some "pkg") "sum" "diff"
                (InfluxErr EInternal "store is unavailable" None)
                (or_intror (or_introl eq_refl)) eq_refl) as (_ & Hstatus & Hbody & Hcalls).
    exact (conj Hstatus (conj Hbody Hcalls)).
  - destruct (applyPkg_hard_failure demo_ext
                (demo_svc ("sum", "diff", None) ("sum2", demo_hard_err)) tt tt
                (demo_request "application/json" "apply") Done _ eq_refl) as [_ Happly].
    destruct (Happly (Some 7%N) 1%N 7%N (Some "pkg")
                [ApplyWithSecrets {[ "token" := "s3cret" ]}] "sum2"
                (InfluxErr EInternal "store is unavailable" None)
                (or_intror (or_intror (or_introl eq_refl))) eq_refl) as (_ & Hstatus & Hbody).
    exact (conj Hstatus Hbody).
Defined.

Lemma applyPkg_invalid_org_witness :
  demo_trace ("sum", "diff", None) ("sum2", None) "application/json" "bad-org"
  = [EvHandleHTTPError (Some 7%N)
       (Some (InfluxErr EConflict "invalid organization ID provided: %q" None))]
  /\ (exists code,
        response_status demo_ext
          (demo_trace ("sum", "diff", None) ("sum2", None) "application/json" "bad-org")
        = Some code /\ 400 <= code < 500)
  /\ no_call is_dry_run_call
       (demo_trace ("sum", "diff", None) ("sum2", None) "application/json" "bad-org")
  /\ no_call is_apply_call
       (demo_trace ("sum", "diff", None) ("sum2", None) "application/json" "bad-org").
Proof.
  apply (applyPkg_invalid_org demo_ext (demo_svc ("sum", "diff", None) ("sum2", None)) tt tt
           (demo_request "application/json" "bad-org") Done _
           None (OtherErr "id must have a length of 16 bytes")).
  - reflexivity.
  - reflexivity.
  - reflexivity.
  - intros msg. simpl. lia.
Defined.

Lemma createPkg_nothing_requested_witness :
  demo_create_trace "nothing"
  = [EvHandleHTTPError (Some 7%N) (Some (InfluxErr EUnprocessableEntity
       "at least 1 resource or 1 org id must be provided" None));
     EvBodyClose]
  /\ response_status demo_ext (demo_create_trace "nothing") = Some 422
  /\ no_call is_create_call (demo_create_trace "nothing").
Proof.
  apply (createPkg_nothing_requested demo_ext (demo_svc ("", "", None) ("", None)) tt tt
           (demo_request "application/json" "nothing") Done _ (mkReqCreatePkg [] [])).
  - reflexivity.
  - reflexivity.
  - reflexivity.
  - reflexivity.
  - reflexivity.
Defined.

Lemma createPkg_skips_malformed_org_ids_witness :
  (exists res rest,
     demo_create_trace "mixed"
     = EvCreatePkg (Some 7%N)
         [CreateWithExistingResources ["bucket"];
          CreateWithAllOrgResources 1%N; CreateWithAllOrgResources 255%N] res :: rest)
  /\ (exists res rest,
     demo_create_trace "malformed-only"
     = EvCreatePkg (Some 7%N) [CreateWithExistingResources []] res :: rest).
Proof.
  split.
  - apply (createPkg_skips_malformed_org_ids demo_ext
             (demo_svc ("", "", None) ("", None)) tt tt
             (demo_request "application/json" "mixed") Done _
             (mkReqCreatePkg ["not-an-id"; "0000000000000001"; "zz"; "00000000000000ff"]
                ["bucket"])).
    + reflexivity.
    + reflexivity.
    + left. discriminate.
    + repeat constructor; discriminate.
  - apply (createPkg_skips_malformed_org_ids demo_ext
             (demo_svc ("", "", None) ("", None)) tt tt
             (demo_request "application/json" "malformed-only") Done _
             (mkReqCreatePkg ["not-an-id"] [])).
    + reflexivity.
    + reflexivity.
    + right. discriminate.
    + repeat constructor; discriminate.
Defined.

Lemma pkgEncoding_table_witness :
  pkgEncoding {[ "Content-Type" := ["application/x-jsonnet"] ]} = EncodingJsonnet
  /\ pkgEncoding {[ "Content-Type" := ["text/yml"] ]} = EncodingYAML
  /\ pkgEncoding {[ "Accept" := ["text/yml"] ]} = EncodingJSON.
Proof.
  split; [| split].
  - apply (proj1 (pkgEncoding_table {[ "Content-Type" := ["application/x-jsonnet"] ]})).
    reflexivity.
  - apply (proj1 (proj2 (pkgEncoding_table {[ "Content-Type" := ["text/yml"] ]}))).
    left. reflexivity.
  - apply (proj2 (proj2 (proj2 (pkgEncoding_table {[ "Accept" := ["text/yml"] ]})))).
    reflexivity.
Defined.
(** ** The further properties of the packages transport at concrete requests *)

Lemma applyPkg_decode_error_witness :
  demo_apply_trace (demo_svc ("sum", "diff", None) ("sum2", None))
    (demo_request "application/x-yaml" "garbage")
  = [EvHandleHTTPError (Some 7%N)
       (Some (InfluxErr EInvalid "unable to unmarshal %s; Err: %v" (Some demo_eof)))]
  /\ Done = Done.
Proof.
  apply (applyPkg_decode_error demo_ext (demo_svc ("sum", "diff", None) ("sum2", None)) tt tt
           (demo_request "application/x-yaml" "garbage") Done _ demo_eof).
  - reflexivity.
  - reflexivity.
Defined.

Lemma applyPkg_authorizer_error_witness :
  demo_apply_trace (demo_svc ("sum", "diff", None) ("sum2", None))
    (demo_request_anonymous "application/json" "apply")
  = [EvHandleHTTPError None
       (Some (InfluxErr EInternal "authorizer not found on context" None))]
  /\ Done = Done.
Proof.
  apply (applyPkg_authorizer_error demo_ext (demo_svc ("sum", "diff", None) ("sum2", None))
           tt tt (demo_request_anonymous "application/json" "apply") Done _ None
           (InfluxErr EInternal "authorizer not found on context" None)).
  - reflexivity.
  - reflexivity.
  - reflexivity.
  - reflexivity.
Defined.

Lemma applyPkg_parse_failure_witness :
  demo_apply_trace
    (demo_svc_full (None, Some demo_eof) ("sum", "diff", None) ("sum2", None)
       (Some "pkg", None) None)
    (demo_request "application/json" "apply")
  = [EvParse EncodingJSON (FromReader "{}") (None, Some demo_eof);
     EvHandleHTTPError (Some 7%N)
       (Some (InfluxErr EInvalid "failed to parse package from provided URL" (Some demo_eof)))]
  /\ Done = Done.
Proof.
  apply (applyPkg_parse_failure demo_ext
           (demo_svc_full (None, Some demo_eof) ("sum", "diff", None) ("sum2", None)
              (Some "pkg", None) None)
           tt tt (demo_request "application/json" "apply") Done _
           EncodingJSON (FromReader "{}") None demo_eof).
  - reflexivity.
  - left. reflexivity.
Defined.

Lemma applyPkg_apply_clean_witness :
  response_status demo_ext
    (demo_trace ("sum", "diff", None) ("sum2", None) "application/json" "apply") = Some 201
  /\ encoded (demo_trace ("sum", "diff", None) ("sum2", None) "application/json" "apply")
     = [(JSONEnc, ApplyBody (mkRespApplyPkg "diff" "sum2" []))].
Proof.
  apply (applyPkg_apply_clean demo_ext (demo_svc ("sum", "diff", None) ("sum2", None)) tt tt
           (demo_request "application/json" "apply") Done _
           (Some 7%N) 1%N 7%N (Some "pkg") "sum" "diff" None
           (Some 7%N) 1%N 7%N (Some "pkg") [ApplyWithSecrets {[ "token" := "s3cret" ]}]
           "sum2").
  - reflexivity.
  - right. left. reflexivity.
  - right. right. left. reflexivity.
Defined.

Lemma applyPkg_apply_guarded_witness :
  DryRun (apply_reqBody demo_ext (demo_request "application/json" "apply")) = false
  /\ [ApplyWithSecrets ({[ "token" := "s3cret" ]} : gmap string string)]
     = [ApplyWithSecrets
          (Secrets (apply_reqBody demo_ext (demo_request "application/json" "apply")))]
  /\ exists e0 sum diff rest,
       demo_trace ("sum", "diff", None) ("sum2", None) "application/json" "apply"
       = e0 :: EvDryRun (Some 7%N) 1%N 7%N (Some "pkg") (sum, diff, None)
            :: EvApply (Some 7%N) 1%N 7%N (Some "pkg")
                 [ApplyWithSecrets {[ "token" := "s3cret" ]}] ("sum2", None)
            :: rest.
Proof.
  apply (applyPkg_apply_guarded demo_ext (demo_svc ("sum", "diff", None) ("sum2", None)) tt tt
           (demo_request "application/json" "apply") Done _
           (Some 7%N) 1%N 7%N (Some "pkg") [ApplyWithSecrets {[ "token" := "s3cret" ]}]
           ("sum2", None)).
  - reflexivity.
  - right. right. left. reflexivity.
Defined.

Lemma applyPkg_dry_run_arguments_witness :
  Some 7%N = Context_ (demo_request "application/json" "dry-run")
  /\ (decodeWithEncoding demo_ext (demo_request "application/json" "dry-run")).2.2 = None
  /\ IDFromString demo_ext
       (OrgID (apply_reqBody demo_ext (demo_request "application/json" "dry-run")))
     = (Some 1%N, None)
  /\ (exists auth,
        GetAuthorizer demo_ext (Context_ (demo_request "application/json" "dry-run"))
        = (Some auth, None)
        /\ 7%N = GetUserID demo_ext auth)
  /\ exists encoding src rest,
       demo_trace ("sum", "diff", None) ("sum2", None) "application/json" "dry-run"
       = EvParse encoding src (Some "pkg", None)
           :: EvDryRun (Some 7%N) 1%N 7%N (Some "pkg") ("sum", "diff", None) :: rest.
Proof.
  apply (applyPkg_dry_run_arguments demo_ext (demo_svc ("sum", "diff", None) ("sum2", None))
           tt tt (demo_request "application/json" "dry-run") Done _
           (Some 7%N) 1%N 7%N (Some "pkg") ("sum", "diff", None)).
  - reflexivity.
  - right. left. reflexivity.
Defined.

Lemma applyPkg_responds_in_json_witness :
  (exists code,
     response_status demo_ext
       (demo_trace ("sum", "diff", None) ("sum2", None) "text/yml" "apply") = Some code)
  /\ (length (encoded (demo_trace ("sum", "diff", None) ("sum2", None) "text/yml" "apply"))
      <= 1)%nat
  /\ Forall (fun eb => eb.1 = JSONEnc)
       (encoded (demo_trace ("sum", "diff", None) ("sum2", None) "text/yml" "apply"))
  /\ (length (handled (demo_trace ("sum", "diff", None) ("sum2", None) "text/yml" "apply"))
      <= 1)%nat
  /\ (encoded (demo_trace ("sum", "diff", None) ("sum2", None) "text/yml" "apply") = [] ->
      length (handled (demo_trace ("sum", "diff", None) ("sum2", None) "text/yml" "apply"))
      = 1%nat)
  /\ headers_set (demo_trace ("sum", "diff", None) ("sum2", None) "text/yml" "apply") = []
  /\ no_call is_body_close
       (demo_trace ("sum", "diff", None) ("sum2", None) "text/yml" "apply")
  /\ no_call is_create_call
       (demo_trace ("sum", "diff", None) ("sum2", None) "text/yml" "apply").
Proof.
  apply (applyPkg_responds_in_json demo_ext (demo_svc ("sum", "diff", None) ("sum2", None))
           tt tt (demo_request "text/yml" "apply") Done _).
  - reflexivity.
  - reflexivity.
Defined.

Lemma encResp_status_kept_witness :
  response_status demo_ext
    (trace_of
       (demo_svc_full (Some "pkg", None) ("sum", "diff", None) ("sum2", None)
          (Some "pkg", None) (Some demo_eof))
       (encResp demo_ext (Some 7%N) JSONEnc 200 (CreateBody ["bucket"])) tt)
  = Some 200
  /\ handled
       (trace_of
          (demo_svc_full (Some "pkg", None) ("sum", "diff", None) ("sum2", None)
             (Some "pkg", None) (Some demo_eof))
          (encResp demo_ext (Some 7%N) JSONEnc 200 (CreateBody ["bucket"])) tt)
     = [Some (InfluxErr EInternal "unable to marshal; Err: %v" (Some demo_eof))].
Proof.
  destruct (encResp_status_kept demo_ext
              (demo_svc_full (Some "pkg", None) ("sum", "diff", None) ("sum2", None)
                 (Some "pkg", None) (Some demo_eof))
              tt tt (Some 7%N) JSONEnc 200 (CreateBody ["bucket"]) tt
              (trace_of
                 (demo_svc_full (Some "pkg", None) ("sum", "diff", None) ("sum2", None)
                    (Some "pkg", None) (Some demo_eof))
                 (encResp demo_ext (Some 7%N) JSONEnc 200 (CreateBody ["bucket"])) tt)
              eq_refl) as (Hstatus & _ & _).
  split; [exact Hstatus | reflexivity].
Defined.

Lemma createPkg_success_witness :
  response_status demo_ext
    (demo_export_trace (demo_svc ("", "", None) ("", None)) (demo_request "text/yml" "mixed"))
  = Some 200
  /\ headers_set
       (demo_export_trace (demo_svc ("", "", None) ("", None))
          (demo_request "text/yml" "mixed"))
     = [("Content-Type", "application/x-yaml")]
  /\ encoded
       (demo_export_trace (demo_svc ("", "", None) ("", None))
          (demo_request "text/yml" "mixed"))
     = [(YAMLEnc, CreateBody ["pkg"])].
Proof.
  destruct (createPkg_success demo_ext (demo_svc ("", "", None) ("", None)) tt tt
              (demo_request "text/yml" "mixed") Done
              (demo_export_trace (demo_svc ("", "", None) ("", None))
                 (demo_request "text/yml" "mixed"))
              (Some 7%N)
              [CreateWithExistingResources ["bucket"];
               CreateWithAllOrgResources 1%N; CreateWithAllOrgResources 255%N]
              "pkg" eq_refl (or_introl eq_refl)) as (Hstatus & Hyaml & _).
  destruct (Hyaml eq_refl) as [Hheader Hbody].
  exact (conj Hstatus (conj Hheader Hbody)).
Defined.

Lemma createPkg_service_error_witness :
  demo_export_trace
    (demo_svc_full (Some "pkg", None) ("", "", None) ("", None)
       (Some "partial", demo_hard_err) None)
    (demo_request "application/json" "malformed-only")
  = [EvCreatePkg (Some 7%N) [CreateWithExistingResources []] (Some "partial", demo_hard_err);
     EvLoggerError "failed to create pkg" demo_hard_err;
     EvHandleHTTPError (Some 7%N) demo_hard_err;
     EvBodyClose]
  /\ Done = Done.
Proof.
  apply (createPkg_service_error demo_ext
           (demo_svc_full (Some "pkg", None) ("", "", None) ("", None)
              (Some "partial", demo_hard_err) None)
           tt tt (demo_request "application/json" "malformed-only") Done _
           (Some 7%N) [CreateWithExistingResources []] (Some "partial")
           (InfluxErr EInternal "store is unavailable" None)).
  - reflexivity.
  - left. reflexivity.
Defined.

Lemma createPkg_body_close_witness :
  demo_export_trace (demo_svc ("", "", None) ("", None))
    (demo_request "application/x-yaml" "garbage")
  = [EvHandleHTTPError (Some 7%N)
       (Some (InfluxErr EInvalid "unable to unmarshal %s; Err: %v" (Some demo_eof)))]
  /\ (last (demo_export_trace (demo_svc ("", "", None) ("", None))
              (demo_request "application/json" "nothing")) = Some EvBodyClose
      /\ count_calls is_body_close
           (demo_export_trace (demo_svc ("", "", None) ("", None))
              (demo_request "application/json" "nothing")) = 1%nat).
Proof.
  split.
  - apply (proj1 (createPkg_body_close demo_ext (demo_svc ("", "", None) ("", None)) tt tt
                    (demo_request "application/x-yaml" "garbage") Done _ eq_refl)).
    reflexivity.
  - apply (proj2 (createPkg_body_close demo_ext (demo_svc ("", "", None) ("", None)) tt tt
                    (demo_request "application/json" "nothing") Done _ eq_refl)).
    reflexivity.
Defined.

Lemma createPkg_responds_once_witness :
  (exists code,
     response_status demo_ext
       (demo_export_trace (demo_svc ("", "", None) ("", None))
          (demo_request "application/json" "mixed")) = Some code)
  /\ (count_calls is_create_call
        (demo_export_trace (demo_svc ("", "", None) ("", None))
           (demo_request "application/json" "mixed")) <= 1)%nat
  /\ no_call is_apply_call
       (demo_export_trace (demo_svc ("", "", None) ("", None))
          (demo_request "application/json" "mixed")).
Proof.
  destruct (createPkg_responds_once demo_ext (demo_svc ("", "", None) ("", None)) tt tt
              (demo_request "application/json" "mixed") Done
              (demo_export_trace (demo_svc ("", "", None) ("", None))
                 (demo_request "application/json" "mixed"))
              eq_refl eq_refl) as (Hstatus & _ & _ & _ & Hcreate & _ & _ & Happly).
  exact (conj Hstatus (conj Hcreate Happly)).
Defined.

Lemma PkgRemote_Encoding_extension_witness :
  PkgRemote_Encoding (mkPkgRemote ("https://example.com/pkg" ++ ".jsonnet") "yaml")
  = EncodingJsonnet
  /\ PkgRemote_Encoding (mkPkgRemote ("https://example.com/pkg" ++ ".json") "YAML")
     = EncodingJSON
  /\ PkgRemote_Encoding (mkPkgRemote ("https://example.com/pkg" ++ ".yml") "text/plain")
     = EncodingYAML.
Proof.
  split; [| split].
  - apply (proj1 (PkgRemote_Encoding_extension "https://example.com/pkg" "yaml")).
  - apply (proj1 (proj2 (PkgRemote_Encoding_extension "https://example.com/pkg" "YAML"))).
    discriminate.
  - apply (proj1 (proj2 (proj2 (PkgRemote_Encoding_extension "https://example.com/pkg"
                                   "text/plain")) ltac:(discriminate) ltac:(discriminate))).
Defined.

Lemma PkgRemote_Encoding_no_extension_witness :
  PkgRemote_Encoding (mkPkgRemote ("https://example.com/pkgs" ++ "/" ++ "latest") "")
  = EncodingSource
  /\ PkgRemote_Encoding (mkPkgRemote ("https://example.com/pkgs" ++ "/" ++ "latest") "YML")
     = EncodingYAML.
Proof.
  split.
  - apply (PkgRemote_Encoding_no_extension "https://example.com/pkgs" "latest" "").
    reflexivity.
  - apply (PkgRemote_Encoding_no_extension "https://example.com/pkgs" "latest" "YML").
    reflexivity.
Defined.

(** ** The properties of the users transport at concrete requests *)

Lemma handlePutUserPassword_invalid_id_witness :
  udemo_trace udemo_ok
    (UserHTTP.handlePutUserPassword udemo_ext
       (udemo_request "not-an-id" "new-secret" ∅ (Some ("alice", "old-secret"))))
  = [UserHTTP.EvHandleHTTPError (Some 7%N, [("org", "acme"); ("id", "not-an-id")])
       (Some (UserHTTP.InfluxErr UserHTTP.NoCode "invalid user ID provided in route" "" None));
     UserHTTP.EvHandleHTTPError (Some 7%N, [("org", "acme"); ("id", "not-an-id")])
       (Some (UserHTTP.OtherErr "id must have a length of 16 bytes"))]
  /\ Done = Done.
Proof.
  apply (handlePutUserPassword_invalid_id udemo_ext udemo_ok tt tt
           (udemo_request "not-an-id" "new-secret" ∅ (Some ("alice", "old-secret")))
           Done _ "alice" "old-secret" None
           (UserHTTP.OtherErr "id must have a length of 16 bytes")).
  - reflexivity.
  - reflexivity.
  - reflexivity.
  - reflexivity.
Defined.

Lemma handlePutUserPassword_arguments_witness :
  (exists user,
     UserHTTP.BasicAuth
       (udemo_request "0000000000000001" "new-secret" ∅ (Some ("alice", "old-secret")))
     = Some (user, "old-secret"))
  /\ UserHTTP.json_Decode_password udemo_ext "new-secret" = ("new-secret", None)
  /\ UserHTTP.IDFromString udemo_ext "0000000000000001" = (Some 1%N, None)
  /\ udemo_trace udemo_ok
       (UserHTTP.handlePutUserPassword udemo_ext
          (udemo_request "0000000000000001" "new-secret" ∅ (Some ("alice", "old-secret"))))
     = [UserHTTP.EvCompareAndSetPassword
          (Some 7%N, [("org", "acme"); ("id", "0000000000000001")])
          1%N "old-secret" "new-secret" None;
        UserHTTP.EvLogDebug "User password updated" [];
        UserHTTP.EvWriteHeader 204].
Proof.
  apply (handlePutUserPassword_arguments udemo_ext udemo_ok tt tt
           (udemo_request "0000000000000001" "new-secret" ∅ (Some ("alice", "old-secret")))
           Done _ (Some 7%N, [("org", "acme"); ("id", "0000000000000001")])
           1%N "old-secret" "new-secret" None).
  - reflexivity.
  - left. reflexivity.
Defined.

Lemma handlePutUserPassword_rejected_witness :
  udemo_trace udemo_ok
    (UserHTTP.handlePutUserPassword udemo_ext
       (udemo_request "0000000000000001" "new-secret" ∅ None))
  = [UserHTTP.EvHandleHTTPError (Some 7%N, [("org", "acme"); ("id", "0000000000000001")])
       (Some (UserHTTP.Errorf "invalid basic auth"))]
  /\ udemo_trace udemo_ok
       (UserHTTP.handlePutUserPassword udemo_ext
          (udemo_request "0000000000000001" "" ∅ (Some ("alice", "old-secret"))))
     = [UserHTTP.EvHandleHTTPError (Some 7%N, [("org", "acme"); ("id", "0000000000000001")])
          (Some (UserHTTP.InfluxErr UserHTTP.EInvalid "" "" (Some (UserHTTP.OtherErr "EOF"))))].
Proof.
  split.
  - apply (proj1 (handlePutUserPassword_rejected udemo_ext udemo_ok tt tt
                    (udemo_request "0000000000000001" "new-secret" ∅ None) Done _ eq_refl)).
    reflexivity.
  - apply (proj2 (handlePutUserPassword_rejected udemo_ext udemo_ok tt tt
                    (udemo_request "0000000000000001" "" ∅ (Some ("alice", "old-secret")))
                    Done _ eq_refl)).
    + discriminate.
    + reflexivity.
Defined.

Lemma handlePostUserPassword_rejected_witness :
  udemo_trace udemo_ok
    (UserHTTP.handlePostUserPassword udemo_ext (udemo_request "not-an-id" "" ∅ None))
  = [UserHTTP.EvHandleHTTPError (Some 7%N, [("org", "acme"); ("id", "not-an-id")])
       (Some (UserHTTP.InfluxErr UserHTTP.EInvalid "" "" (Some (UserHTTP.OtherErr "EOF"))))]
  /\ udemo_trace udemo_ok
       (UserHTTP.handlePostUserPassword udemo_ext (udemo_request "not-an-id" "secret" ∅ None))
     = [UserHTTP.EvHandleHTTPError (Some 7%N, [("org", "acme"); ("id", "not-an-id")])
          (Some (UserHTTP.InfluxErr UserHTTP.NoCode
                   "invalid user ID provided in route" "" None))].
Proof.
  split.
  - apply (proj1 (handlePostUserPassword_rejected udemo_ext udemo_ok tt tt
                    (udemo_request "not-an-id" "" ∅ None) Done _ eq_refl)
             (UserHTTP.OtherErr "EOF")).
    reflexivity.
  - apply (proj2 (handlePostUserPassword_rejected udemo_ext udemo_ok tt tt
                    (udemo_request "not-an-id" "secret" ∅ None) Done _ eq_refl)
             (UserHTTP.OtherErr "id must have a length of 16 bytes")).
    + reflexivity.
    + reflexivity.
Defined.

Lemma handlePostUserPassword_arguments_witness :
  UserHTTP.json_Decode_password udemo_ext "secret" = ("secret", None)
  /\ UserHTTP.IDFromString udemo_ext "0000000000000001" = (Some 1%N, None)
  /\ udemo_trace udemo_failing
       (UserHTTP.handlePostUserPassword udemo_ext
          (udemo_request "0000000000000001" "secret" ∅ None))
     = [UserHTTP.EvSetPassword (Some 7%N, [("org", "acme"); ("id", "0000000000000001")])
          1%N "secret" (Some (UserHTTP.OtherErr "store is unavailable"));
        UserHTTP.EvHandleHTTPError (Some 7%N, [("org", "acme"); ("id", "0000000000000001")])
          (Some (UserHTTP.OtherErr "store is unavailable"))].
Proof.
  apply (handlePostUserPassword_arguments udemo_ext udemo_failing tt tt
           (udemo_request "0000000000000001" "secret" ∅ None) Done _
           (Some 7%N, [("org", "acme"); ("id", "0000000000000001")]) 1%N "secret"
           (Some (UserHTTP.OtherErr "store is unavailable"))).
  - reflexivity.
  - left. reflexivity.
Defined.

Lemma handlePostUser_default_status_witness :
  exists b,
    UserHTTP.json_Decode_User udemo_ext "carol" = (b, None)
    /\ UserHTTP.User_ID (UserHTTP.mkUser 0%N "active" "carol") = UserHTTP.User_ID b
    /\ UserHTTP.User_fields (UserHTTP.mkUser 0%N "active" "carol") = UserHTTP.User_fields b
    /\ (UserHTTP.User_Status b <> "" -> UserHTTP.mkUser 0%N "active" "carol" = b)
    /\ (UserHTTP.User_Status b = "" ->
        UserHTTP.User_Status (UserHTTP.mkUser 0%N "active" "carol") = "active")
    /\ ("active" <> "" -> UserHTTP.User_Status (UserHTTP.mkUser 0%N "active" "carol") <> "").
Proof.
  apply (handlePostUser_default_status udemo_ext udemo_ok tt tt
           (udemo_request "" "carol" ∅ None) Done
           (udemo_trace udemo_ok
              (UserHTTP.handlePostUser udemo_ext (udemo_request "" "carol" ∅ None)))
           (Some 7%N, [("org", "acme"); ("id", "")])
           (UserHTTP.mkUser 0%N "active" "carol")
           (UserHTTP.mkUser 1%N "active" "carol", None)).
  - reflexivity.
  - left. reflexivity.
Defined.

Lemma handlePostUser_created_witness :
  UserHTTP.statuses (udemo_trace udemo_ok
                       (UserHTTP.handlePostUser udemo_ext (udemo_request "" "carol" ∅ None)))
  = [201]
  /\ UserHTTP.encoded (udemo_trace udemo_ok
                         (UserHTTP.handlePostUser udemo_ext (udemo_request "" "carol" ∅ None)))
     = [UserHTTP.UserBody (UserHTTP.mkUserResponse
          {[ "self" := "/api/v2/users/0000000000000001";
             "logs" := "/api/v2/users/0000000000000001/logs" ]}
          (UserHTTP.mkUser 1%N "active" "carol"))]
  /\ UserHTTP.service_calls
       (udemo_trace udemo_ok
          (UserHTTP.handlePostUser udemo_ext (udemo_request "" "carol" ∅ None)))
     = [UserHTTP.EvCreateUser (Some 7%N, [("org", "acme"); ("id", "")])
          (UserHTTP.mkUser 0%N "active" "carol")
          (UserHTTP.mkUser 1%N "active" "carol", None)].
Proof.
  apply (handlePostUser_created udemo_ext udemo_ok tt tt
           (udemo_request "" "carol" ∅ None) Done _
           (Some 7%N, [("org", "acme"); ("id", "")])
           (UserHTTP.mkUser 0%N "active" "carol")
           (UserHTTP.mkUser 1%N "active" "carol")).
  - reflexivity.
  - left. reflexivity.
Defined.

Lemma missing_id_rejected_witness :
  (UserHTTP.run udemo_ok (UserHTTP.handleGetUser udemo_ext (udemo_request "" "" ∅ None)) tt).1
  = (Done, [UserHTTP.EvHandleHTTPError (Some 7%N, [("org", "acme"); ("id", "")])
              (Some (UserHTTP.InfluxErr UserHTTP.EInvalid "url missing id" "" None))])
  /\ (UserHTTP.run udemo_ok
        (UserHTTP.handlePatchUser udemo_ext (udemo_request "" "rename" ∅ None)) tt).1
     = (Done, [UserHTTP.EvHandleHTTPError (Some 7%N, [("org", "acme"); ("id", "")])
                 (Some (UserHTTP.InfluxErr UserHTTP.EInvalid "url missing id" "" None))]).
Proof.
  split.
  - apply (missing_id_rejected udemo_ext udemo_ok tt (udemo_request "" "" ∅ None)).
    reflexivity.
  - apply (missing_id_rejected udemo_ext udemo_ok tt (udemo_request "" "rename" ∅ None)).
    reflexivity.
Defined.

Lemma handleDeleteUser_outcomes_witness :
  "0000000000000001" <> ""
  /\ UserHTTP.ID_DecodeFromString udemo_ext "0000000000000001" = (1%N, None)
  /\ udemo_trace udemo_ok
       (UserHTTP.handleDeleteUser udemo_ext (udemo_request "0000000000000001" "" ∅ None))
     = [UserHTTP.EvDeleteUser (Some 7%N, [("org", "acme"); ("id", "0000000000000001")])
          1%N None;
        UserHTTP.EvLogDebug "User deleted" [("userID", UserHTTP.LoggedID 1%N)];
        UserHTTP.EvWriteHeader 204]
  /\ UserHTTP.encoded
       (udemo_trace udemo_ok
          (UserHTTP.handleDeleteUser udemo_ext (udemo_request "0000000000000001" "" ∅ None)))
     = [].
Proof.
  apply (handleDeleteUser_outcomes udemo_ext udemo_ok tt tt
           (udemo_request "0000000000000001" "" ∅ None) Done _
           (Some 7%N, [("org", "acme"); ("id", "0000000000000001")]) 1%N None).
  - reflexivity.
  - left. reflexivity.
Defined.

Lemma handleGetMe_uses_authorizer_witness :
  (exists a,
     UserHTTP.GetAuthorizer udemo_ext (Some 7%N, [("org", "acme"); ("id", "0000000000000001")])
     = (Some a, None)
     /\ 7%N = UserHTTP.GetUserID udemo_ext a)
  /\ UserHTTP.service_calls
       (udemo_trace udemo_ok
          (UserHTTP.handleGetMe udemo_ext (udemo_request "0000000000000001" "" ∅ None)))
     = [UserHTTP.EvFindUserByID (Some 7%N, [("org", "acme"); ("id", "0000000000000001")])
          7%N (Some udemo_alice, None)].
Proof.
  destruct (handleGetMe_uses_authorizer udemo_ext udemo_ok tt tt
              (udemo_request "0000000000000001" "" ∅ None) Done
              (udemo_trace udemo_ok
                 (UserHTTP.handleGetMe udemo_ext (udemo_request "0000000000000001" "" ∅ None)))
              (Some 7%N, [("org", "acme"); ("id", "0000000000000001")]) 7%N
              (Some udemo_alice, None) eq_refl (or_introl eq_refl))
    as (Hauth & Hcalls & _).
  exact (conj Hauth Hcalls).
Defined.

Lemma handleGetUsers_lists_witness :
  UserHTTP.filter_Name (UserHTTP.mkUserFilter (Some 1%N) None) = None
  /\ UserHTTP.IDFromString udemo_ext "0000000000000001" = (Some 1%N, None)
  /\ UserHTTP.statuses
       (udemo_trace udemo_ok
          (UserHTTP.handleGetUsers udemo_ext
             (udemo_request "" "" {[ "id" := ["0000000000000001"]; "name" := [""] ]} None)))
     = [200].
Proof.
  assert (Hrun :
    UserHTTP.run udemo_ok
      (UserHTTP.handleGetUsers udemo_ext
         (udemo_request "" "" {[ "id" := ["0000000000000001"]; "name" := [""] ]} None)) tt
    = (Done,
       udemo_trace udemo_ok
         (UserHTTP.handleGetUsers udemo_ext
            (udemo_request "" "" {[ "id" := ["0000000000000001"]; "name" := [""] ]} None)),
       tt)) by (vm_compute; reflexivity).
  assert (Hin :
    In (UserHTTP.EvSvcFindUsers (Some 7%N, [("org", "acme"); ("id", "")])
          (UserHTTP.mkUserFilter (Some 1%N) None)
          ([Some udemo_alice; Some udemo_bob], 2%nat, None))
       (udemo_trace udemo_ok
          (UserHTTP.handleGetUsers udemo_ext
             (udemo_request "" ""
                {[ "id" := ["0000000000000001"]; "name" := [""] ]} None))))
    by (vm_compute; left; reflexivity).
  destruct (handleGetUsers_lists udemo_ext udemo_ok tt tt _ Done _ _ _ _ Hrun Hin)
    as (Hname & _ & Hid & Hbody).
  split; [exact Hname |]. split.
  - apply Hid. vm_compute. discriminate.
  - exact (proj1 (Hbody _ _ _ eq_refl eq_refl)).
Defined.

Lemma FindUsers_result_witness :
  2%nat = length [Some udemo_alice; Some udemo_bob]
  /\ Forall (fun u => u <> None) [Some udemo_alice; Some udemo_bob]
  /\ ((None : option UserHTTP.error) <> None -> [Some udemo_alice; Some udemo_bob] = [])
  /\ exists answer,
       udemo_trace udemo_ok
         (UserHTTP.FindUsers udemo_ext (Some 7%N, [])
            (UserHTTP.mkUserFilter (Some 1%N) (Some "alice")) [20%nat])
       = [UserHTTP.EvClientGetUsers (Some 7%N, []) "/api/v2/users"
            [("limit", "20"); ("id", "0000000000000001"); ("name", "alice")] answer].
Proof.
  apply (FindUsers_result udemo_ext udemo_ok tt tt (Some 7%N, [])
           (UserHTTP.mkUserFilter (Some 1%N) (Some "alice")) [20%nat] _
           [Some udemo_alice; Some udemo_bob] 2%nat None).
  reflexivity.
Defined.

Lemma FindUser_result_witness :
  ((Some udemo_alice = None <-> (None : option UserHTTP.error) <> None)
   /\ (length (udemo_trace udemo_ok
                 (UserHTTP.FindUser udemo_ext "http/" (Some 7%N, [])
                    (UserHTTP.mkUserFilter None (Some "alice")))) <= 1)%nat)
  /\ (udemo_trace udemo_ok
        (UserHTTP.FindUser udemo_ext "http/" (Some 7%N, []) (UserHTTP.mkUserFilter None None))
      = []
      /\ Some (UserHTTP.InfluxErr UserHTTP.ENotFound "user not found" "" None)
         = Some (UserHTTP.InfluxErr UserHTTP.ENotFound "user not found" "" None)).
Proof.
  split.
  - destruct (FindUser_result udemo_ext udemo_ok tt tt "http/" (Some 7%N, [])
                (UserHTTP.mkUserFilter None (Some "alice"))
                (udemo_trace udemo_ok
                   (UserHTTP.FindUser udemo_ext "http/" (Some 7%N, [])
                      (UserHTTP.mkUserFilter None (Some "alice"))))
                (Some udemo_alice) None eq_refl)
      as (Hxor & _ & _ & _ & Hlen).
    exact (conj Hxor Hlen).
  - apply (proj1 (proj2 (FindUser_result udemo_ext udemo_ok tt tt "http/" (Some 7%N, [])
                           (UserHTTP.mkUserFilter None None) [] None
                           (Some (UserHTTP.InfluxErr UserHTTP.ENotFound "user not found" "" None))
                           eq_refl))).
    + reflexivity.
    + reflexivity.
Defined.
